(** * Live-data synchronisation of the dashboard panels

    A shallow embedding of the polling and cascading-fetch logic of the
    dashboard (MetricsPanel, ErrorsPanel, ExecutionsPanel, AlertsPanel,
    DriftPanel and the health poll of Dashboard), with the properties the
    specification states about it.

    The components are React function components.  Their hooks are records,
    the promise chains hung on a fetch are computations in a small writer
    monad of setter calls, and a mounted component is a runtime record that
    a step function moves on timer ticks, user clicks and settled fetches. *)

From Stdlib Require Import String List Bool Arith Lia.
From stdpp Require Import base option list gmap strings.

Local Open Scope string_scope.
Local Open Scope list_scope.
Local Set Warnings "-register-all".

(** ** JavaScript values as the code uses them *)

Module Js.

(** Truthiness of a value that is a string, [undefined] or [null]:
    only a non-empty string is truthy. *)
Definition truthy (v : option string) : bool :=
  match v with
  | Some s => negb (String.eqb s "")
  | None => false
  end.

(** [String.prototype.includes]: [sub] occurs somewhere in [s]. *)
Fixpoint includes (s sub : string) : bool :=
  if String.prefix sub s then true
  else match s with
       | EmptyString => false
       | String _ rest => includes rest sub
       end.

(** [x || undefined] on such a value: a falsy value becomes [undefined]. *)
Definition or_undefined (v : option string) : option string :=
  if truthy v then v else None.

(** A decoded JSON payload.  Numbers are kept as their literals: no
    arithmetic is done on them by the code modelled here. *)
Inductive Json : Type :=
| JNull
| JBool (b : bool)
| JNum (literal : string)
| JStr (s : string)
| JArr (items : list Json)
| JObj (fields : list (string * Json)).

(** The rejection value of a failed request: an [Error] with a message. *)
Record Error : Type := { message : string }.

End Js.

(** ** Promise chains

    A settled promise is fulfilled with a value or rejected with an error.
    [then_], [catch_] and [finally_] run their callback at once on a settled
    promise; the callbacks of this code base only call state setters, so a
    chain is a list of setter calls together with the promise it leaves.
    The callbacks of one chain run in consecutive microtasks: no timer,
    click or response comes in between, so a settled fetch is one step. *)

Module Promise.
Import Js.

Inductive Outcome (A : Type) : Type :=
| Fulfilled (value : A)
| Rejected (reason : Error).
Arguments Fulfilled {A} value.
Arguments Rejected {A} reason.

Definition Chain (W A : Type) : Type := (list W * Outcome A)%type.

Definition settled {W A : Type} (o : Outcome A) : Chain W A := ([], o).

(** [p.then(f)] *)
Definition then_ {W A B : Type} (p : Chain W A) (f : A -> list W * B) : Chain W B :=
  match p with
  | (w, Fulfilled v) => let '(w', b) := f v in (w ++ w', Fulfilled b)
  | (w, Rejected e) => (w, Rejected e)
  end.

(** [p.catch(f)] *)
Definition catch_ {W A : Type} (p : Chain W A) (f : Error -> list W * A) : Chain W A :=
  match p with
  | (w, Fulfilled v) => (w, Fulfilled v)
  | (w, Rejected e) => let '(w', a) := f e in (w ++ w', Fulfilled a)
  end.

(** [p.finally(f)] *)
Definition finally_ {W A : Type} (p : Chain W A) (f : unit -> list W) : Chain W A :=
  let '(w, o) := p in (w ++ f tt, o).

(** The rejection a chain leaves unhandled, if any. *)
Definition unhandled {W A : Type} (p : Chain W A) : option Error :=
  match snd p with
  | Fulfilled _ => None
  | Rejected e => Some e
  end.

Definition calls {W A : Type} (p : Chain W A) : list W := fst p.

End Promise.

(** ** Dashboard: the health snapshot and the liveness signal *)

Module Dashboard.
Import Js.

Record AgentHealth : Type := { status : string }.

(** The payload of [GET /health]; [agents] may be absent. *)
Record HealthSnapshot : Type := { agents : option (gmap string AgentHealth) }.

(** [Object.values(o)] *)
Definition object_values {A : Type} (o : gmap string A) : list A :=
  (map_to_list o).*2.

(** [arr.every(p)] *)
Definition every {A : Type} (p : A -> bool) (arr : list A) : bool := forallb p arr.

(** [health ? Object.values(health.agents || {}).every(a => a.status === 'ok') : false] *)
Definition agentsUp (health : option HealthSnapshot) : bool :=
  match health with
  | Some h => every (fun a => String.eqb (status a) "ok")
                    (object_values (default ∅ (agents h)))
  | None => false
  end.

(** The liveness signal in the specification's words: the mapping is
    non-empty and every entry's status equals 'ok'. *)
Definition spec_all_online (health : option HealthSnapshot) : Prop :=
  exists h m, health = Some h /\ agents h = Some m /\ m <> ∅ /\
              map_Forall (fun _ a => status a = "ok") m.

End Dashboard.


(** ** The request client (api.js) *)

Module Api.
Import Js.

(** A request as it leaves the client: the endpoint and its parameters. *)
Inductive Request : Type :=
| GetHealth
| GetMetrics
| GetDrift (agent_type : option string)
| GetErrors (category : option string)
| GetHistory (limit : nat)
| GetAlerts
| PostExecute (sql agent_type : string).

Definition fetchHealth : Request := GetHealth.
Definition fetchMetrics : Request := GetMetrics.

(** [params: agentType ? { agent_type: agentType } : {}] *)
Definition fetchDrift (agentType : option string) : Request :=
  GetDrift (if truthy agentType then agentType else None).

Definition fetchErrors (category : option string) : Request :=
  GetErrors (if truthy category then category else None).

(** [fetchHistory = (limit = 50) => ...] *)
Definition fetchHistory (limit : option nat) : Request :=
  GetHistory (default 50 limit).

Definition fetchAlerts : Request := GetAlerts.

Definition executeSql (sql agentType : string) : Request :=
  PostExecute sql agentType.

(** The payload of [POST /debug/execute]. *)
Record ExecResult : Type := {
  status : string;
  results : option (list Json);
  error : option string
}.

End Api.

(** ** Panels that poll one endpoint

    What a panel needs to be driven by the polling runtime below: its hooks,
    the calls its promise callbacks make, how a call acts on the hooks, the
    request its [load] sends and the chain [load] hangs on that request. *)

Module Panels.
Import Js Promise Api.

(** What the data region of a panel shows. *)
Inductive View (D : Type) : Type :=
| ErrorMessage (msg : string)
| Placeholder
| Content (d : D).
Arguments ErrorMessage {D} msg.
Arguments Placeholder {D}.
Arguments Content {D} d.

Class Panel : Type := {
  Hooks : Type;
  Payload : Type;
  Call : Type;
  initial : Hooks;
  perform : Call -> Hooks -> Hooks;
  fetch : Request;
  load : Outcome Payload -> Chain Call unit;
  intervalMs : nat
}.

(** A JSON number, kept as its literal. *)
Definition Number : Type := string.

(** The payload of [GET /metrics], with the properties [MetricsPanel] reads:
    [const { overall, per_agent } = data], [overall.total_evaluations], ...,
    and [d.total], [d.passed], [d.accuracy], [d.avg_score] for every entry
    [[name, d]] of [Object.entries(per_agent)].  The render of the panel
    dereferences [overall], [per_agent] and every [d], so it is defined on
    the payloads of this type, the ones the endpoint documents; no other
    payload is modelled. *)
Module MetricsData.
Record Overall : Type := {
  total_evaluations : Number;
  passed : Number;
  failed : Number;
  accuracy : Number;
  avg_score : Number
}.

Module Agent.
Record t : Type := {
  total : Number;
  passed : Number;
  accuracy : Number;
  avg_score : Number
}.
End Agent.

(** [per_agent] in the order of [Object.entries]. *)
Record t : Type := {
  overall : Overall;
  per_agent : list (string * Agent.t)
}.
End MetricsData.

(** The payload of [GET /errors], with the properties [ErrorsPanel] reads:
    [const { total_errors, categories, recent_errors } = data], [d.count] and
    [Object.entries(d.severities)] for every category, and the strings
    [e.category.replace], [e.severity.toLowerCase] and [e.message.slice] are
    called on for every recent error. *)
Module ErrorsData.
Record Category : Type := {
  count : Number;
  severities : list (string * Number)
}.

Record RecentError : Type := {
  query_id : string;
  query_text : string;
  category : string;
  severity : string;
  message : string
}.

Record t : Type := {
  total_errors : Number;
  categories : list (string * Category);
  recent_errors : list RecentError
}.
End ErrorsData.

(** [MetricsPanel]:
    [fetchMetrics().then(setData).catch(e => setError(e.message))] *)
Module MetricsPanel.
Record Hooks : Type := { data : option MetricsData.t; error : option string }.
Inductive Call : Type := SetData (d : MetricsData.t) | SetError (msg : string).

Definition initial : Hooks := {| data := None; error := None |}.

Definition perform (c : Call) (h : Hooks) : Hooks :=
  match c with
  | SetData d => {| data := Some d; error := error h |}
  | SetError msg => {| data := data h; error := Some msg |}
  end.

Definition load (o : Outcome MetricsData.t) : Chain Call unit :=
  catch_ (then_ (settled o) (fun d => ([SetData d], tt)))
         (fun e => ([SetError (message e)], tt)).

(** [if (error) return <p className="error-msg">...;
     if (!data) return <p className="loading">...]
    and then the cards, the chart and the table of the payload, which is an
    object and so never falsy. *)
Definition render (h : Hooks) : View MetricsData.t :=
  if truthy (error h) then ErrorMessage (default "" (error h))
  else match data h with
       | None => Placeholder
       | Some d => Content d
       end.
End MetricsPanel.

(** [ErrorsPanel]: the same shape on [fetchErrors()]. *)
Module ErrorsPanel.
Record Hooks : Type := { data : option ErrorsData.t; error : option string }.
Inductive Call : Type := SetData (d : ErrorsData.t) | SetError (msg : string).

Definition initial : Hooks := {| data := None; error := None |}.

Definition perform (c : Call) (h : Hooks) : Hooks :=
  match c with
  | SetData d => {| data := Some d; error := error h |}
  | SetError msg => {| data := data h; error := Some msg |}
  end.

Definition load (o : Outcome ErrorsData.t) : Chain Call unit :=
  catch_ (then_ (settled o) (fun d => ([SetData d], tt)))
         (fun e => ([SetError (message e)], tt)).

Definition render (h : Hooks) : View ErrorsData.t :=
  if truthy (error h) then ErrorMessage (default "" (error h))
  else match data h with
       | None => Placeholder
       | Some d => Content d
       end.
End ErrorsPanel.

(** [AlertsPanel]: [loadAlerts] stores the list and clears [loading]; a
    failure is written to the console and clears [loading]. *)
Module AlertsPanel.
Record Hooks : Type := { alerts : list Json; loading : bool; tab : string }.
Inductive Call : Type :=
| SetAlerts (d : list Json)
| SetLoading (b : bool)
| ConsoleError (label : string) (err : Error).

Definition initial : Hooks := {| alerts := []; loading := true; tab := "Active" |}.

Definition perform (c : Call) (h : Hooks) : Hooks :=
  match c with
  | SetAlerts d => {| alerts := d; loading := loading h; tab := tab h |}
  | SetLoading b => {| alerts := alerts h; loading := b; tab := tab h |}
  | ConsoleError _ _ => h
  end.

Definition loadAlerts (o : Outcome (list Json)) : Chain Call unit :=
  catch_ (then_ (settled o) (fun d => ([SetAlerts d; SetLoading false], tt)))
         (fun err => ([ConsoleError "Failed to load alerts" err; SetLoading false], tt)).

(** [if (loading && alerts.length === 0) return <div>Loading alerts...</div>] *)
Definition render (h : Hooks) : View (list Json) :=
  if loading h && Nat.eqb (length (alerts h)) 0 then Placeholder
  else Content (alerts h).
End AlertsPanel.

(** [ExecutionsPanel]: the same shape on [fetchHistory()]. *)
Module ExecutionsPanel.
Record Hooks : Type := { runs : list Json; loading : bool; searchTerm : string }.
Inductive Call : Type :=
| SetRuns (d : list Json)
| SetLoading (b : bool)
| ConsoleError (label : string) (err : Error).

Definition initial : Hooks := {| runs := []; loading := true; searchTerm := "" |}.

Definition perform (c : Call) (h : Hooks) : Hooks :=
  match c with
  | SetRuns d => {| runs := d; loading := loading h; searchTerm := searchTerm h |}
  | SetLoading b => {| runs := runs h; loading := b; searchTerm := searchTerm h |}
  | ConsoleError _ _ => h
  end.

Definition loadHistory (o : Outcome (list Json)) : Chain Call unit :=
  catch_ (then_ (settled o) (fun d => ([SetRuns d; SetLoading false], tt)))
         (fun err => ([ConsoleError "Failed to load history" err; SetLoading false], tt)).

(** The table body, before the search box narrows it:
    [loading && runs.length === 0 ? <tr>Loading history...</tr> : rows]. *)
Definition render (h : Hooks) : View (list Json) :=
  if loading h && Nat.eqb (length (runs h)) 0 then Placeholder
  else Content (runs h).
End ExecutionsPanel.

(** The health poll of [Dashboard]:
    [fetchHealth().then(setHealth).catch(() => { })] *)
Module HealthPoll.
Record Hooks : Type := { tab : string; health : option Dashboard.HealthSnapshot }.
Inductive Call : Type := SetHealth (h : Dashboard.HealthSnapshot).

Definition initial : Hooks := {| tab := "Metrics"; health := None |}.

Definition perform (c : Call) (h : Hooks) : Hooks :=
  match c with
  | SetHealth s => {| tab := tab h; health := Some s |}
  end.

Definition poll (o : Outcome Dashboard.HealthSnapshot) : Chain Call unit :=
  catch_ (then_ (settled o) (fun s => ([SetHealth s], tt)))
         (fun _ => ([], tt)).

(** [agentsUp ? 'All agents online' : 'Checking…'] *)
Definition render (h : Hooks) : bool := Dashboard.agentsUp (health h).
End HealthPoll.

Inductive PanelName : Type := Metrics | Errors | Executions | Alerts | Health.

Definition panel (n : PanelName) : Panel :=
  match n with
  | Metrics =>
      {| Hooks := MetricsPanel.Hooks; Payload := MetricsData.t; Call := MetricsPanel.Call;
         initial := MetricsPanel.initial; perform := MetricsPanel.perform;
         fetch := fetchMetrics; load := MetricsPanel.load; intervalMs := 3000 |}
  | Errors =>
      {| Hooks := ErrorsPanel.Hooks; Payload := ErrorsData.t; Call := ErrorsPanel.Call;
         initial := ErrorsPanel.initial; perform := ErrorsPanel.perform;
         fetch := fetchErrors None; load := ErrorsPanel.load; intervalMs := 3000 |}
  | Executions =>
      {| Hooks := ExecutionsPanel.Hooks; Payload := list Json; Call := ExecutionsPanel.Call;
         initial := ExecutionsPanel.initial; perform := ExecutionsPanel.perform;
         fetch := fetchHistory None; load := ExecutionsPanel.loadHistory; intervalMs := 3000 |}
  | Alerts =>
      {| Hooks := AlertsPanel.Hooks; Payload := list Json; Call := AlertsPanel.Call;
         initial := AlertsPanel.initial; perform := AlertsPanel.perform;
         fetch := fetchAlerts; load := AlertsPanel.loadAlerts; intervalMs := 5000 |}
  | Health =>
      {| Hooks := HealthPoll.Hooks; Payload := Dashboard.HealthSnapshot; Call := HealthPoll.Call;
         initial := HealthPoll.initial; perform := HealthPoll.perform;
         fetch := fetchHealth; load := HealthPoll.poll; intervalMs := 3000 |}
  end.

End Panels.

(** ** The polling runtime

    [useEffect(() => { load(); const id = setInterval(load, ms);
                       return () => clearInterval(id); }, [])]

    A fetch is identified by its position in the log of requests sent.  The
    timer fires whether or not an earlier fetch is still in flight.

    The chain hung on a fetch runs when the fetch settles, whether the panel
    is still mounted or not: the code keeps no flag and no counter that
    would stop it.  [hooks] is the state as the setters were last called;
    what React does with a call that reaches it after the unmount is not
    part of this code.

    A render that throws takes the tree down with it (there is no error
    boundary), which runs the cleanup: for the runtime that is an [Unmount].
    The payloads of the metrics, errors and health polls are typed by what
    their renders dereference.  The alerts and the runs are lists of any
    JSON value: a statement that needs their render to return says so in a
    hypothesis on the payloads.  [called] keeps the calls the promise
    callbacks made, [console.error] included, in the order they made
    them. *)

Module Poller.
Import Js Promise Api Panels.

Section Runtime.
Context (P : Panel).

Record Runtime : Type := {
  hooks : Hooks;
  mounted : bool;
  interval : bool;            (* the interval timer is live *)
  network : list Request;     (* requests sent, oldest first *)
  inflight : list nat;        (* fetches sent and not settled yet *)
  rejections : list Error;    (* rejections no handler caught *)
  called : list Call          (* calls the promise callbacks made, oldest first *)
}.

Inductive Event : Type :=
| Tick
| Settle (id : nat) (o : Outcome Payload)
| Unmount.

(** The calls of a callback, in the order it makes them. *)
Definition commit (cs : list Call) (h : Hooks) : Hooks :=
  fold_left (fun h c => perform c h) cs h.

Definition pending (id : nat) (rt : Runtime) : bool :=
  existsb (Nat.eqb id) (inflight rt).

(** [load()]: the request goes out. *)
Definition issue (rt : Runtime) : Runtime :=
  {| hooks := hooks rt; mounted := mounted rt; interval := interval rt;
     network := network rt ++ [fetch];
     inflight := inflight rt ++ [length (network rt)];
     rejections := rejections rt; called := called rt |}.

(** The effect on mount: [load()] and then [setInterval(load, ms)]. *)
Definition mount : Runtime :=
  let rt := issue {| hooks := initial; mounted := true; interval := false;
                     network := []; inflight := []; rejections := [];
                     called := [] |} in
  {| hooks := hooks rt; mounted := true; interval := true;
     network := network rt; inflight := inflight rt; rejections := rejections rt;
     called := called rt |}.

Definition settle (id : nat) (o : Outcome Payload) (rt : Runtime) : Runtime :=
  let c := load o in
  {| hooks := commit (calls c) (hooks rt);
     mounted := mounted rt; interval := interval rt;
     network := network rt;
     inflight := List.filter (fun j => negb (Nat.eqb id j)) (inflight rt);
     rejections := rejections rt ++ option_list (unhandled c);
     called := called rt ++ calls c |}.

(** The cleanup of the effect: [clearInterval(id)]. *)
Definition unmount (rt : Runtime) : Runtime :=
  {| hooks := hooks rt; mounted := false; interval := false;
     network := network rt; inflight := inflight rt; rejections := rejections rt;
     called := called rt |}.

Definition step (ev : Event) (rt : Runtime) : Runtime :=
  match ev with
  | Tick => if interval rt then issue rt else rt
  | Settle id o => if pending id rt then settle id o rt else rt
  | Unmount => unmount rt
  end.

Definition run (evs : list Event) (rt : Runtime) : Runtime :=
  fold_left (fun rt ev => step ev rt) evs rt.

End Runtime.

Arguments hooks {P} _.
Arguments mounted {P} _.
Arguments interval {P} _.
Arguments network {P} _.
Arguments inflight {P} _.
Arguments rejections {P} _.
Arguments called {P} _.
Arguments Tick {P}.
Arguments Settle {P} & id o.
Arguments Unmount {P}.

End Poller.

(** ** DriftPanel: the scoped drift poll and the cascading execute fetch *)

Module Drift.
Import Js Promise Api.
Import Panels (View, ErrorMessage, Placeholder, Content).

(** A row of [high_drift_samples]. *)
Record DriftSample : Type := {
  query_id : string;
  query_text : string;
  sql : option string;
  agent_type : option string;
  drift_score : Json;
  classification : Json
}.

(** The payload of [GET /drift]. *)
Record DriftData : Type := {
  distribution : Json;
  total_anomalies : Json;
  high_drift_samples : list DriftSample
}.

Record Hooks : Type := {
  data : option DriftData;
  filter : string;
  error : option string;
  selectedQuery : option DriftSample;
  execResult : option ExecResult;
  execLoading : bool
}.

Inductive Call : Type :=
| SetData (d : DriftData)
| SetFilter (v : string)
| SetError (msg : string)
| SetSelectedQuery (s : option DriftSample)
| SetExecResult (r : option ExecResult)
| SetExecLoading (b : bool).

Definition initial : Hooks :=
  {| data := None; filter := ""; error := None; selectedQuery := None;
     execResult := None; execLoading := false |}.

Definition perform (c : Call) (h : Hooks) : Hooks :=
  match c with
  | SetData d =>
      {| data := Some d; filter := filter h; error := error h;
         selectedQuery := selectedQuery h; execResult := execResult h;
         execLoading := execLoading h |}
  | SetFilter v =>
      {| data := data h; filter := v; error := error h;
         selectedQuery := selectedQuery h; execResult := execResult h;
         execLoading := execLoading h |}
  | SetError msg =>
      {| data := data h; filter := filter h; error := Some msg;
         selectedQuery := selectedQuery h; execResult := execResult h;
         execLoading := execLoading h |}
  | SetSelectedQuery s =>
      {| data := data h; filter := filter h; error := error h;
         selectedQuery := s; execResult := execResult h;
         execLoading := execLoading h |}
  | SetExecResult r =>
      {| data := data h; filter := filter h; error := error h;
         selectedQuery := selectedQuery h; execResult := r;
         execLoading := execLoading h |}
  | SetExecLoading b =>
      {| data := data h; filter := filter h; error := error h;
         selectedQuery := selectedQuery h; execResult := execResult h;
         execLoading := b |}
  end.

Definition performAll (cs : list Call) (h : Hooks) : Hooks :=
  fold_left (fun h c => perform c h) cs h.

(** *** The drift poll *)

(** [load(agentType)] sends [fetchDrift(agentType || undefined)] ... *)
Definition load (agentType : string) : Request :=
  fetchDrift (or_undefined (Some agentType)).

(** ... and hangs [.then(setData).catch(e => setError(e.message))] on it. *)
Definition loadChain (o : Outcome DriftData) : Chain Call unit :=
  catch_ (then_ (settled o) (fun d => ([SetData d], tt)))
         (fun e => ([SetError (message e)], tt)).

(** *** The execute fetch *)

(** [{ status: 'error', error: 'No SQL recorded.' }] *)
Definition noSqlRecorded : ExecResult :=
  {| status := "error"; results := None; Api.error := Some "No SQL recorded." |}.

(** [{ status: 'error', error: err.message }] *)
Definition errorResult (err : Error) : ExecResult :=
  {| status := "error"; results := None; Api.error := Some (message err) |}.

(** The body of the effect on [selectedQuery]: the setter calls it makes
    at once and the request it sends, if any. *)
Definition selectionEffect (selectedQuery : option DriftSample)
  : list Call * option Request :=
  if negb (truthy (selectedQuery ≫= sql)) || negb (truthy (selectedQuery ≫= agent_type))
  then ([SetExecResult None], None)
  else
    match selectedQuery ≫= sql, selectedQuery ≫= agent_type with
    | Some q, Some a =>
        if includes q "Not Available"
        then ([SetExecResult (Some noSqlRecorded)], None)
        else ([SetExecLoading true], Some (executeSql q a))
    | _, _ => ([SetExecResult None], None)   (* not reached: both are truthy *)
    end.

(** [.then(res => setExecResult(res))
     .catch(err => setExecResult({ status: 'error', error: err.message }))
     .finally(() => setExecLoading(false))] *)
Definition execChain (o : Outcome ExecResult) : Chain Call unit :=
  finally_
    (catch_ (then_ (settled o) (fun res => ([SetExecResult (Some res)], tt)))
            (fun err => ([SetExecResult (Some (errorResult err))], tt)))
    (fun _ => [SetExecLoading false]).

(** *** What the panel shows *)

(** The "Query Output" box of the details pane. *)
Inductive OutputView : Type :=
| LoadingOutput
| NoOutputData
| OutputError (msg : option string)
| ZeroRows
| OutputTable (rows : list Json)
| RenderThrows.

(** [null] among the rows: [Object.keys(null)] and [Object.values(null)]
    throw. *)
Definition isNull (v : Json) : bool :=
  match v with
  | JNull => true
  | _ => false
  end.

(** [execLoading ? 'Loading output...' : execResult ? (... ) : 'No output data.']
    with, for a result whose status is not 'error',
    [execResult.results.length === 0 ? '0 rows returned.' : <table>], the
    header from [Object.keys(execResult.results[0])] and a line from
    [Object.values(row)] for every row. *)
Definition renderOutput (h : Hooks) : OutputView :=
  if execLoading h then LoadingOutput
  else match execResult h with
       | None => NoOutputData
       | Some r =>
           if String.eqb (status r) "error" then OutputError (Api.error r)
           else match results r with
                | None => RenderThrows
                | Some [] => ZeroRows
                | Some rows =>
                    if existsb isNull rows then RenderThrows else OutputTable rows
                end
       end.

(** The panel: the error message alone, the loading line alone, or the
    cards and tables, with the details pane when a query is selected. *)
Definition render (h : Hooks) : View (DriftData * option OutputView) :=
  if truthy (error h) then ErrorMessage (default "" (error h))
  else match data h with
       | None => Placeholder
       | Some d =>
           Content (d, match selectedQuery h with
                       | Some _ => Some (renderOutput h)
                       | None => None
                       end)
       end.

(** *** The mounted panel

    Besides what the poller keeps, the runtime holds the interval timers
    that are live, each with the filter its callback closed over, and the
    identity of the objects involved: a decoded response is a fresh object,
    so a row is identified by the fetch that brought it and its index.

    [setInterval] adds a timer and returns its id; only [clearInterval] on
    that id removes it.  The effect on [filter] keeps the id in its
    [interval] constant, which its cleanup closes over.

    As for the pollers, the chains run whether the panel is mounted or not,
    [called] keeps the calls they made, and the runtime follows a panel
    whose render returns: a render that throws is an [Unmount]. *)

Record Runtime : Type := {
  hooks : Hooks;
  mounted : bool;
  timers : list (nat * string); (* live timers: id, filter of the closure *)
  timerCount : nat;             (* timers created so far: the next id *)
  interval : option nat;        (* [interval] of the last run of the effect *)
  network : list Request;       (* requests sent, oldest first *)
  inflight : list nat;          (* fetches sent and not settled yet *)
  rejections : list Error;      (* rejections no handler caught *)
  called : list Call;           (* calls the promise callbacks made *)
  dataFrom : nat;               (* the fetch whose payload [data] holds *)
  selectedRef : option (nat * nat)  (* which row object [selectedQuery] is *)
}.

(** [Tick id]: the period of timer [id] has elapsed. *)
Inductive Event : Type :=
| Tick (id : nat)
| ClickFilter (v : string)
| ClickRow (i : nat)
| ClickClose
| SettleDrift (id : nat) (o : Outcome DriftData)
| SettleExec (id : nat) (o : Outcome ExecResult)
| Unmount.

Definition withHooks (h : Hooks) (rt : Runtime) : Runtime :=
  {| hooks := h; mounted := mounted rt; timers := timers rt;
     timerCount := timerCount rt; interval := interval rt;
     network := network rt; inflight := inflight rt;
     rejections := rejections rt; called := called rt;
     dataFrom := dataFrom rt;
     selectedRef := selectedRef rt |}.

(** [const interval = setInterval(() => load(f), 3000)] *)
Definition setInterval (f : string) (rt : Runtime) : Runtime :=
  {| hooks := hooks rt; mounted := mounted rt;
     timers := timers rt ++ [(timerCount rt, f)];
     timerCount := S (timerCount rt); interval := Some (timerCount rt);
     network := network rt; inflight := inflight rt;
     rejections := rejections rt; called := called rt;
     dataFrom := dataFrom rt;
     selectedRef := selectedRef rt |}.

(** [clearInterval(id)] *)
Definition clearInterval (id : nat) (rt : Runtime) : Runtime :=
  {| hooks := hooks rt; mounted := mounted rt;
     timers := List.filter (fun t => negb (Nat.eqb (fst t) id)) (timers rt);
     timerCount := timerCount rt; interval := interval rt;
     network := network rt; inflight := inflight rt;
     rejections := rejections rt; called := called rt;
     dataFrom := dataFrom rt;
     selectedRef := selectedRef rt |}.

(** A request goes out and its promise is pending. *)
Definition send (r : Request) (rt : Runtime) : Runtime :=
  {| hooks := hooks rt; mounted := mounted rt; timers := timers rt;
     timerCount := timerCount rt; interval := interval rt;
     network := network rt ++ [r];
     inflight := inflight rt ++ [length (network rt)];
     rejections := rejections rt; called := called rt;
     dataFrom := dataFrom rt;
     selectedRef := selectedRef rt |}.

(** The calls of a callback, in the order it makes them. *)
Definition commit (cs : list Call) (h : Hooks) : Hooks := performAll cs h.

Definition pending (id : nat) (rt : Runtime) : bool :=
  existsb (Nat.eqb id) (inflight rt).

(** The effect on [filter]:
    [load(filter); const interval = setInterval(() => load(filter), 3000)] *)
Definition filterEffect (rt : Runtime) : Runtime :=
  let f := filter (hooks rt) in
  setInterval f (send (load f) rt).

(** Its cleanup: [clearInterval(interval)], on the [interval] of the run of
    the effect that returned it. *)
Definition filterCleanup (rt : Runtime) : Runtime :=
  match interval rt with
  | Some id => clearInterval id rt
  | None => rt
  end.

(** The callback of timer [id], if the timer is live. *)
Definition callbackOf (id : nat) (rt : Runtime) : option string :=
  snd <$> List.find (fun t => Nat.eqb (fst t) id) (timers rt).

(** The effect on [selectedQuery], run on the committed hooks. *)
Definition runSelectionEffect (rt : Runtime) : Runtime :=
  let '(cs, req) := selectionEffect (selectedQuery (hooks rt)) in
  let rt' := withHooks (performAll cs (hooks rt)) rt in
  match req with
  | Some r => send r rt'
  | None => rt'
  end.

Definition mount : Runtime :=
  runSelectionEffect
    (filterEffect
       {| hooks := initial; mounted := true; timers := []; timerCount := 0;
          interval := None; network := []; inflight := []; rejections := [];
          called := []; dataFrom := 0; selectedRef := None |}).

(** The cards and tables are on screen: the panel is mounted, [error] is
    falsy and [data] is there. *)
Definition onScreen (rt : Runtime) : option DriftData :=
  if mounted rt && negb (truthy (error (hooks rt))) then data (hooks rt) else None.

Definition FILTERS : list string := [""; "spend"; "demand"].

Definition sameRef (a : option (nat * nat)) (b : nat * nat) : bool :=
  match a with
  | Some (f, i) => Nat.eqb f (fst b) && Nat.eqb i (snd b)
  | None => false
  end.

Definition withSelection (s : option DriftSample) (r : option (nat * nat))
           (rt : Runtime) : Runtime :=
  {| hooks := perform (SetSelectedQuery s) (hooks rt); mounted := mounted rt;
     timers := timers rt; timerCount := timerCount rt; interval := interval rt;
     network := network rt; inflight := inflight rt;
     rejections := rejections rt; called := called rt;
     dataFrom := dataFrom rt; selectedRef := r |}.

(** [onClick={() => setFilter(v)}]: the same string leaves the state as it
    is; another one re-runs the effect on [filter] after its cleanup. *)
Definition clickFilter (v : string) (rt : Runtime) : Runtime :=
  match onScreen rt with
  | None => rt
  | Some _ =>
      if negb (existsb (String.eqb v) FILTERS) then rt
      else if String.eqb v (filter (hooks rt)) then rt
      else filterEffect (filterCleanup (withHooks (perform (SetFilter v) (hooks rt)) rt))
  end.

(** [onClick={() => setSelectedQuery(s)}] on row [i]: the object already
    selected leaves the state as it is; another one re-runs the effect on
    [selectedQuery]. *)
Definition clickRow (i : nat) (rt : Runtime) : Runtime :=
  match onScreen rt with
  | None => rt
  | Some d =>
      match nth_error (high_drift_samples d) i with
      | None => rt
      | Some s =>
          if sameRef (selectedRef rt) (dataFrom rt, i) then rt
          else runSelectionEffect (withSelection (Some s) (Some (dataFrom rt, i)) rt)
      end
  end.

(** [onClick={() => setSelectedQuery(null)}], on the details pane. *)
Definition clickClose (rt : Runtime) : Runtime :=
  match onScreen rt, selectedQuery (hooks rt) with
  | Some _, Some _ => runSelectionEffect (withSelection None None rt)
  | _, _ => rt
  end.

Definition isDriftFetch (id : nat) (rt : Runtime) : bool :=
  match nth_error (network rt) id with
  | Some (GetDrift _) => true
  | _ => false
  end.

Definition isExecFetch (id : nat) (rt : Runtime) : bool :=
  match nth_error (network rt) id with
  | Some (PostExecute _ _) => true
  | _ => false
  end.

Definition settled_out (id : nat) (l : list nat) : list nat :=
  List.filter (fun j => negb (Nat.eqb id j)) l.

(** A drift fetch settles and its chain runs. *)
Definition settleDrift (id : nat) (o : Outcome DriftData) (rt : Runtime) : Runtime :=
  let c := loadChain o in
  {| hooks := commit (calls c) (hooks rt);
     mounted := mounted rt; timers := timers rt; timerCount := timerCount rt;
     interval := interval rt; network := network rt;
     inflight := settled_out id (inflight rt);
     rejections := rejections rt ++ option_list (unhandled c);
     called := called rt ++ calls c;
     dataFrom := match o with
                 | Fulfilled _ => id
                 | Rejected _ => dataFrom rt
                 end;
     selectedRef := selectedRef rt |}.

(** An execute fetch settles and its chain runs. *)
Definition settleExec (id : nat) (o : Outcome ExecResult) (rt : Runtime) : Runtime :=
  let c := execChain o in
  {| hooks := commit (calls c) (hooks rt);
     mounted := mounted rt; timers := timers rt; timerCount := timerCount rt;
     interval := interval rt; network := network rt;
     inflight := settled_out id (inflight rt);
     rejections := rejections rt ++ option_list (unhandled c);
     called := called rt ++ calls c;
     dataFrom := dataFrom rt; selectedRef := selectedRef rt |}.

(** Unmounting runs the cleanup of the effect on [filter]; the effect on
    [selectedQuery] has none. *)
Definition unmount (rt : Runtime) : Runtime :=
  let rt' := filterCleanup rt in
  {| hooks := hooks rt'; mounted := false; timers := timers rt';
     timerCount := timerCount rt'; interval := interval rt';
     network := network rt'; inflight := inflight rt';
     rejections := rejections rt'; called := called rt';
     dataFrom := dataFrom rt'; selectedRef := selectedRef rt' |}.

Definition step (ev : Event) (rt : Runtime) : Runtime :=
  match ev with
  | Tick id =>
      match callbackOf id rt with
      | Some f => send (load f) rt
      | None => rt
      end
  | ClickFilter v => clickFilter v rt
  | ClickRow i => clickRow i rt
  | ClickClose => clickClose rt
  | SettleDrift id o =>
      if pending id rt && isDriftFetch id rt then settleDrift id o rt else rt
  | SettleExec id o =>
      if pending id rt && isExecFetch id rt then settleExec id o rt else rt
  | Unmount => unmount rt
  end.

Definition run (evs : list Event) (rt : Runtime) : Runtime :=
  fold_left (fun rt ev => step ev rt) evs rt.

End Drift.

(** ** Concrete payloads and selections used in the examples *)

Module Scenario.
Import Js Promise Api Drift.

Definition networkError : Error := {| message := "Network Error" |}.

Definition metrics1 : Panels.MetricsData.t :=
  let spend := {| Panels.MetricsData.Agent.total := "12";
                  Panels.MetricsData.Agent.passed := "10";
                  Panels.MetricsData.Agent.accuracy := "83.3";
                  Panels.MetricsData.Agent.avg_score := "0.81" |} in
  {| Panels.MetricsData.overall :=
       {| Panels.MetricsData.total_evaluations := "12";
          Panels.MetricsData.passed := "10";
          Panels.MetricsData.failed := "2";
          Panels.MetricsData.accuracy := "83.3";
          Panels.MetricsData.avg_score := "0.81" |};
     Panels.MetricsData.per_agent := [("spend", spend)] |}.

Definition metrics2 : Panels.MetricsData.t :=
  let spend := {| Panels.MetricsData.Agent.total := "13";
                  Panels.MetricsData.Agent.passed := "11";
                  Panels.MetricsData.Agent.accuracy := "84.6";
                  Panels.MetricsData.Agent.avg_score := "0.82" |} in
  {| Panels.MetricsData.overall :=
       {| Panels.MetricsData.total_evaluations := "13";
          Panels.MetricsData.passed := "11";
          Panels.MetricsData.failed := "2";
          Panels.MetricsData.accuracy := "84.6";
          Panels.MetricsData.avg_score := "0.82" |};
     Panels.MetricsData.per_agent := [("spend", spend)] |}.

Definition errors1 : Panels.ErrorsData.t :=
  {| Panels.ErrorsData.total_errors := "1";
     Panels.ErrorsData.categories :=
       [("SQL_GENERATION",
         {| Panels.ErrorsData.count := "1";
            Panels.ErrorsData.severities := [("HIGH", "1")] |})];
     Panels.ErrorsData.recent_errors :=
       [{| Panels.ErrorsData.query_id := "q7";
           Panels.ErrorsData.query_text := "spend by vendor";
           Panels.ErrorsData.category := "SQL_GENERATION";
           Panels.ErrorsData.severity := "HIGH";
           Panels.ErrorsData.message := "syntax error" |}] |}.


Definition queryX : DriftSample :=
  {| query_id := "q1"; query_text := "spend by vendor"; sql := Some "SELECT 1";
     agent_type := Some "spend"; drift_score := JNum "0.91";
     classification := JStr "high" |}.

Definition queryY : DriftSample :=
  {| query_id := "q2"; query_text := "demand by week"; sql := Some "SELECT 2";
     agent_type := Some "demand"; drift_score := JNum "0.84";
     classification := JStr "high" |}.

(** Nothing was recorded for this one: the placeholder, and an agent. *)
Definition queryPlaceholder : DriftSample :=
  {| query_id := "q3"; query_text := "late shipments"; sql := Some "Not Available";
     agent_type := Some "spend"; drift_score := JNum "0.80";
     classification := JStr "high" |}.

(** The placeholder, and no agent either. *)
Definition queryOrphan : DriftSample :=
  {| query_id := "q4"; query_text := "open orders"; sql := Some "Not Available";
     agent_type := None; drift_score := JNum "0.79";
     classification := JStr "high" |}.

(** No SQL at all. *)
Definition queryNoSql : DriftSample :=
  {| query_id := "q5"; query_text := "price variance"; sql := None;
     agent_type := Some "demand"; drift_score := JNum "0.78";
     classification := JStr "high" |}.

Definition driftAll : DriftData :=
  {| distribution := JObj [("high", JObj [("count", JNum "5")])];
     total_anomalies := JNum "5";
     high_drift_samples := [queryX; queryY; queryPlaceholder; queryOrphan; queryNoSql] |}.

Definition driftAllLater : DriftData :=
  {| distribution := JObj [("high", JObj [("count", JNum "6")])];
     total_anomalies := JNum "6";
     high_drift_samples := [queryX; queryY; queryPlaceholder; queryOrphan; queryNoSql] |}.

Definition driftSpend : DriftData :=
  {| distribution := JObj [("high", JObj [("count", JNum "2")])];
     total_anomalies := JNum "2";
     high_drift_samples := [queryX; queryPlaceholder] |}.

Definition rowsX : ExecResult :=
  {| status := "ok"; results := Some [JObj [("vendor", JStr "acme")]]; Api.error := None |}.

Definition rowsY : ExecResult :=
  {| status := "ok"; results := Some [JObj [("week", JNum "14")]]; Api.error := None |}.

(** The drift panel with its first poll answered: the table is on screen. *)
Definition loaded : Runtime := step (SettleDrift 0 (Fulfilled driftAll)) mount.

(** Health snapshots: [{}], [{a: ok, b: ok}] and [{a: ok, b: degraded}]. *)
Definition noAgents : option Dashboard.HealthSnapshot :=
  Some {| Dashboard.agents := Some ∅ |}.

Definition bothOk : option Dashboard.HealthSnapshot :=
  Some {| Dashboard.agents :=
            Some (<["a" := {| Dashboard.status := "ok" |}]>
                  (<["b" := {| Dashboard.status := "ok" |}]> ∅)) |}.

Definition oneDegraded : option Dashboard.HealthSnapshot :=
  Some {| Dashboard.agents :=
            Some (<["a" := {| Dashboard.status := "ok" |}]>
                  (<["b" := {| Dashboard.status := "degraded" |}]> ∅)) |}.

End Scenario.

(** ** The bearer token of the request client (api.js) *)

Module Auth.
Import Js.

(** The part of a request's configuration the interceptor touches. *)
Record Config : Type := { url : string; headers : gmap string string }.

(** [let accessToken = null] *)
Definition noToken : option string := None.

(** [setAccessToken = (token) => { accessToken = token; }] *)
Definition setAccessToken (token : option string) (accessToken : option string)
  : option string := token.

(** [if (accessToken) { config.headers.Authorization = `Bearer ${accessToken}`; }
     return config;] *)
Definition intercept (accessToken : option string) (config : Config) : Config :=
  match accessToken with
  | Some t =>
      if truthy accessToken
      then {| url := url config;
              headers := <["Authorization" := String.append "Bearer " t]> (headers config) |}
      else config
  | None => config
  end.

(** The token after a series of calls of [setAccessToken]. *)
Definition afterCalls (tokens : list (option string)) : option string :=
  fold_left (fun accessToken token => setAccessToken token accessToken) tokens noToken.

End Auth.

(** ** Reading decoded objects *)

Module JsObject.
Import Js.

(** [v.k] on a decoded value other than null: the value of the property, or
    undefined.  [fields] lists the properties of a decoded object, each key
    once; values that are not objects have none of the keys read here. *)
Definition get (k : string) (v : Json) : option Json :=
  match v with
  | JObj fields => snd <$> List.find (fun kv => String.eqb (fst kv) k) fields
  | _ => None
  end.


(** Reading a property of null throws; every other decoded value can be read. *)
Definition readable (v : Json) : bool :=
  match v with
  | JNull => false
  | _ => true
  end.



End JsObject.

(** ** AlertsPanel: the KPI cards and the icon of a card *)

Module AlertsView.
Import Js JsObject.












End AlertsView.

(** ** ErrorsPanel: category labels *)

Module ErrorsView.
Import Stdlib.Strings.Ascii.

(** [cat.replace(/_/g, ' ')] *)
Fixpoint categoryLabel (cat : string) : string :=
  match cat with
  | EmptyString => EmptyString
  | String c rest =>
      String (if Ascii.eqb c "_" then " "%char else c) (categoryLabel rest)
  end.

End ErrorsView.

(** ** ExecutionsPanel: the search box and the table body *)

Module ExecutionsView.
Import Stdlib.Strings.Ascii.
Import Js JsObject Promise Panels.

(** [String.prototype.toLowerCase] on text of the ASCII range; the panel's
    functions below take the lowering as a parameter. *)
Definition lowerChar (c : ascii) : ascii :=
  let n := nat_of_ascii c in
  if Nat.leb 65 n && Nat.leb n 90 then ascii_of_nat (n + 32) else c.

Fixpoint asciiLower (s : string) : string :=
  match s with
  | EmptyString => EmptyString
  | String c rest => String (lowerChar c) (asciiLower rest)
  end.

Section Search.
Variable toLowerCase : string -> string.

(** [(run.k || '')] for a property that is a string, null or absent. *)
Definition textOf (k : string) (run : Json) : string :=
  match get k run with
  | Some (JStr s) => s
  | _ => ""
  end.

(** A run the filter can read: not null, and each of the three properties
    it lowers is a string, null or absent. *)
Definition textual (k : string) (run : Json) : bool :=
  match get k run with
  | None | Some JNull | Some (JStr _) => true
  | _ => false
  end.

Definition searchable (run : Json) : bool :=
  readable run && textual "prompt" run && textual "dataset" run &&
  textual "correctness_verdict" run.

(** The predicate of [runs.filter(run => ...)]. *)
Definition matches (searchTerm : string) (run : Json) : bool :=
  includes (toLowerCase (textOf "prompt" run)) (toLowerCase searchTerm) ||
  includes (toLowerCase (textOf "dataset" run)) (toLowerCase searchTerm) ||
  includes (toLowerCase (textOf "correctness_verdict" run)) (toLowerCase searchTerm).

Definition filteredRuns (h : ExecutionsPanel.Hooks) : list Json :=
  List.filter (matches (ExecutionsPanel.searchTerm h)) (ExecutionsPanel.runs h).




End Search.

Section Cells.
Variables toLowerCase toUpperCase : string -> string.

(** The dataset cell of a row: its colour and its text,
    [run.dataset.toLowerCase() === 'spend' ? blue : yellow] and
    [run.dataset.toUpperCase()].  The cell calls a string method on
    [run.dataset] as it is: when the property is not a string the call
    throws, and the cell is [None]. *)
Inductive Colour : Type := Blue | Yellow.

Definition datasetCell (run : Json) : option (Colour * string) :=
  match get "dataset" run with
  | Some (JStr s) =>
      Some (if String.eqb (toLowerCase s) "spend" then Blue else Yellow, toUpperCase s)
  | _ => None
  end.

End Cells.








End ExecutionsView.

(** ** Dashboard: the tabs *)

Module DashboardView.
Import Js Promise Panels.

(** [const TABS = ['Metrics', 'Drift', 'Errors', 'Executions', 'Alerts']] *)
Definition TABS : list string := ["Metrics"; "Drift"; "Errors"; "Executions"; "Alerts"].

Inductive Shown : Type :=
| ShowMetrics | ShowDrift | ShowErrors | ShowExecutions | ShowAlerts.

(** [{tab === 'Metrics' && <MetricsPanel />} {tab === 'Drift' && <DriftPanel />} ...] *)
Definition mainContent (tab : string) : list Shown :=
  (if String.eqb tab "Metrics" then [ShowMetrics] else []) ++
  (if String.eqb tab "Drift" then [ShowDrift] else []) ++
  (if String.eqb tab "Errors" then [ShowErrors] else []) ++
  (if String.eqb tab "Executions" then [ShowExecutions] else []) ++
  (if String.eqb tab "Alerts" then [ShowAlerts] else []).

(** What reaches the dashboard: an event of its health poll, or a click on
    the navbar button of index [i] of [TABS.map(t => <button onClick={() => setTab(t)}>)]. *)
Inductive NavEvent : Type :=
| HealthEvent (ev : Poller.Event (panel Health))
| ClickTab (i : nat).

Definition setTab (t : string) (h : HealthPoll.Hooks) : HealthPoll.Hooks :=
  {| HealthPoll.tab := t; HealthPoll.health := HealthPoll.health h |}.

Definition clickTab (i : nat) (rt : Poller.Runtime (panel Health))
  : Poller.Runtime (panel Health) :=
  match nth_error TABS i with
  | Some t =>
      if Poller.mounted rt
      then {| Poller.hooks := (setTab t (Poller.hooks rt) : @Hooks (panel Health));
              Poller.mounted := Poller.mounted rt;
              Poller.interval := Poller.interval rt;
              Poller.network := Poller.network rt;
              Poller.inflight := Poller.inflight rt;
              Poller.rejections := Poller.rejections rt;
              Poller.called := Poller.called rt |}
      else rt
  | None => rt
  end.

Definition navStep (ev : NavEvent) (rt : Poller.Runtime (panel Health))
  : Poller.Runtime (panel Health) :=
  match ev with
  | HealthEvent e => Poller.step (panel Health) e rt
  | ClickTab i => clickTab i rt
  end.

Definition navRun (evs : list NavEvent) (rt : Poller.Runtime (panel Health))
  : Poller.Runtime (panel Health) :=
  fold_left (fun rt ev => navStep ev rt) evs rt.

End DashboardView.

(** ** Vocabulary of the properties of the runtimes *)

Module Cadence.
Import Promise Panels Poller.





End Cadence.

Module DriftLog.
Import Js Promise Api Drift.

(** The [agent_type] parameters the three filter buttons can produce. *)
Definition scopeOk (p : option string) : bool :=
  match p with
  | None => true
  | Some a => existsb (String.eqb a) ["spend"; "demand"]
  end.

(** The requests the drift panel has reason to send: a drift poll under one
    of the three scopes, or the execution of a non-empty SQL text that does
    not contain the placeholder, for a named agent. *)
Definition requestOk (r : Request) : bool :=
  match r with
  | GetDrift p => scopeOk p
  | PostExecute q a =>
      negb (String.eqb q "") && negb (String.eqb a "") &&
      negb (includes q "Not Available")
  | _ => false
  end.

(** Some execute fetch has not settled yet. *)
Definition execInFlight (rt : Runtime) : Prop :=
  exists id, In id (inflight rt) /\ isExecFetch id rt = true.

(** Every event but a failed drift poll whose error has an empty message. *)
Definition loud (ev : Event) : bool :=
  match ev with
  | SettleDrift _ (Rejected e) => negb (String.eqb (message e) "")
  | _ => true
  end.

(** The events that are not a click on a row or on the close button. *)
Definition notASelection (ev : Event) : bool :=
  match ev with
  | ClickRow _ | ClickClose => false
  | _ => true
  end.

(** The timers of a panel in order: none once it is unmounted; while it is
    mounted one, created by the last run of the effect on [filter], with the
    filter in force in its closure. *)
Definition TimersInv (rt : Runtime) : Prop :=
  if mounted rt
  then exists id, interval rt = Some id /\ id < timerCount rt /\
                  timers rt = [(id, filter (hooks rt))]
  else timers rt = [].

(** What holds of the panel after any events: its filter is one of the
    three buttons, its timers are in order, and every request it has sent
    is well formed. *)
Definition RequestsInv (rt : Runtime) : Prop :=
  existsb (String.eqb (filter (hooks rt))) FILTERS = true /\
  TimersInv rt /\
  forallb requestOk (network rt) = true.

(** The fetches in flight are among the requests sent. *)
Definition Bounded (rt : Runtime) : Prop :=
  Forall (fun id => id < length (network rt)) (inflight rt).

Definition LoadingInv (rt : Runtime) : Prop :=
  Bounded rt /\
  (mounted rt = true -> execLoading (hooks rt) = true -> execInFlight rt).

End DriftLog.

(** * Properties *)

(** ** The liveness signal *)

Module DashboardFacts.
Import Dashboard Scenario.

Lemma every_object_values (m : gmap string AgentHealth) :
  every (fun a => String.eqb (status a) "ok") (object_values m) = true <->
  map_Forall (fun _ a => status a = "ok") m.
Proof.
  unfold every, object_values. rewrite forallb_forall. split.
  - intros H k a Hka. apply String.eqb_eq, H.
    apply list_elem_of_In, list_elem_of_fmap. exists (k, a). split; [done|].
    by apply elem_of_map_to_list.
  - intros H a Ha. apply String.eqb_eq.
    apply list_elem_of_In, list_elem_of_fmap in Ha as [[k a'] [-> Hka]].
    apply elem_of_map_to_list in Hka. exact (H k a' Hka).
Qed.

(** C4, as the code has it: [agentsUp] is true exactly when the snapshot is
    there and every entry of its agent mapping (empty when absent) has
    status 'ok'.  A null snapshot and a mapping with a degraded agent give
    false, a mapping of ok agents gives true, and so does an empty one. *)
Theorem agentsUp_iff_snapshot_and_every_ok :
  (forall health,
      agentsUp health = true <->
      exists h, health = Some h /\
                map_Forall (fun _ a => status a = "ok") (default ∅ (agents h))) /\
  agentsUp None = false /\
  agentsUp bothOk = true /\
  agentsUp oneDegraded = false.
Proof.
  split; [|by vm_compute].
  intros [h|]; simpl.
  - rewrite every_object_values. split; [eauto|].
    by intros (h' & [= <-] & H).
  - split; [done|]. by intros (h' & [=] & _).
Qed.

(** C4, the claim as stated fails: for the empty mapping the code reports
    all agents online, while the stated signal (non-empty and all ok) does
    not hold. *)
Lemma agentsUp_empty_mapping_online :
  agentsUp noAgents = true /\ ~ spec_all_online noAgents.
Proof.
  split; [by vm_compute|].
  intros (h & m & [= <-] & [= <-] & Hne & _). by apply Hne.
Qed.

End DashboardFacts.

(** ** Facts about the promise chains *)

Module ChainFacts.
Import Js Promise Api Panels.




Lemma loadChain_calls (o : Outcome Drift.DriftData) :
  calls (Drift.loadChain o) =
  match o with
  | Fulfilled d => [Drift.SetData d]
  | Rejected e => [Drift.SetError (message e)]
  end.
Proof. destruct o; reflexivity. Qed.

Lemma execChain_calls (o : Outcome ExecResult) :
  calls (Drift.execChain o) =
  match o with
  | Fulfilled res => [Drift.SetExecResult (Some res); Drift.SetExecLoading false]
  | Rejected err => [Drift.SetExecResult (Some (Drift.errorResult err));
                     Drift.SetExecLoading false]
  end.
Proof. destruct o; reflexivity. Qed.

End ChainFacts.

(** ** Facts about the polling runtime *)

Module PollerFacts.
Import Js Promise Api Panels Poller ChainFacts.

Section Generic.
Context (P : Panel).

Lemma pending_settled_out (i j : nat) (l : list nat) :
  i <> j ->
  existsb (Nat.eqb i) (List.filter (fun k => negb (Nat.eqb j k)) l) =
  existsb (Nat.eqb i) l.
Proof.
  intros Hij. induction l as [|k l IH]; simpl; [done|].
  destruct (Nat.eqb_spec j k) as [->|Hjk]; simpl.
  - rewrite IH. destruct (Nat.eqb_spec i k); [congruence|done].
  - by rewrite IH.
Qed.

(** A settled fetch: the calls of its chain are made on the hooks, in the
    order the chain makes them, whether the panel is mounted or not. *)
Lemma step_settle (rt : Runtime P) (id : nat) (o : Outcome Payload) :
  pending P id rt = true ->
  hooks (step P (Settle id o) rt) =
  fold_left (fun h c => perform c h) (calls (load o)) (hooks rt).
Proof. intros Hp. simpl. by rewrite Hp. Qed.


Lemma step_settle_mounted (rt : Runtime P) (id : nat) (o : Outcome Payload) :
  mounted rt = true -> pending P id rt = true ->
  hooks (step P (Settle id o) rt) =
  fold_left (fun h c => perform c h) (calls (load o)) (hooks rt).
Proof. intros _. apply step_settle. Qed.

(** The hooks change on a settled fetch only. *)
Lemma step_hooks (ev : Event P) (rt : Runtime P) :
  hooks (step P ev rt) = hooks rt \/
  exists id o, ev = Settle id o /\ pending P id rt = true /\
               hooks (step P ev rt) =
               fold_left (fun h c => perform c h) (calls (load o)) (hooks rt).
Proof.
  destruct ev as [|id o|]; simpl; [left; by destruct (interval rt)| |by left].
  destruct (pending P id rt) eqn:Hp; [|by left].
  right. by exists id, o.
Qed.

Lemma step_keeps_mounted (ev : Event P) (rt : Runtime P) :
  mounted rt = true -> ev <> Unmount -> mounted (step P ev rt) = true.
Proof.
  intros Hm Hev. destruct ev as [|id o|]; simpl; [| |done].
  - by destruct (interval rt).
  - by destruct (pending P id rt).
Qed.



(** Timer ticks send requests and leave the hooks alone. *)
Lemma run_ticks (n : nat) (rt : Runtime P) :
  hooks (run P (repeat Tick n) rt) = hooks rt /\
  mounted (run P (repeat Tick n) rt) = mounted rt.
Proof.
  revert rt. induction n as [|n IH]; intros rt; [done|].
  change (run P (repeat Tick (S n)) rt) with (run P (repeat Tick n) (step P Tick rt)).
  destruct (IH (step P Tick rt)) as [-> ->]. simpl. by destruct (interval rt).
Qed.

End Generic.



End PollerFacts.

(** ** Facts about the drift panel *)

Module DriftFacts.
Import Js Promise Api Drift ChainFacts.

(** The three ways the effect on [selectedQuery] can go. *)
Lemma selectionEffect_cases (sel : option DriftSample) :
  selectionEffect sel = ([SetExecResult None], None) \/
  selectionEffect sel = ([SetExecResult (Some noSqlRecorded)], None) \/
  exists q a, selectionEffect sel = ([SetExecLoading true], Some (executeSql q a)).
Proof.
  unfold selectionEffect.
  destruct (negb (truthy (sel ≫= sql)) || negb (truthy (sel ≫= agent_type)));
    [by left|].
  destruct (sel ≫= sql) as [q|]; [|by left].
  destruct (sel ≫= agent_type) as [a|]; [|by left].
  destruct (includes q "Not Available"); [by right; left|].
  right; right. by exists q, a.
Qed.

(** The effect touches [execResult] and [execLoading] only, and sends at
    most one request. *)
Lemma runSelectionEffect_frame (rt : Runtime) :
  let rt' := runSelectionEffect rt in
  data (hooks rt') = data (hooks rt) /\
  error (hooks rt') = error (hooks rt) /\
  filter (hooks rt') = filter (hooks rt) /\
  selectedQuery (hooks rt') = selectedQuery (hooks rt) /\
  mounted rt' = mounted rt /\ timers rt' = timers rt /\
  rejections rt' = rejections rt.
Proof.
  unfold runSelectionEffect.
  destruct (selectionEffect_cases (selectedQuery (hooks rt)))
    as [-> | [-> | (q & a & ->)]]; by simpl.
Qed.

(** The effect on [filter] and its cleanup leave the hooks alone. *)
Lemma filterEffect_hooks (rt : Runtime) : hooks (filterEffect rt) = hooks rt.
Proof. done. Qed.

Lemma filterCleanup_frame (rt : Runtime) :
  let rt' := filterCleanup rt in
  hooks rt' = hooks rt /\ mounted rt' = mounted rt /\ network rt' = network rt /\
  inflight rt' = inflight rt /\ rejections rt' = rejections rt /\
  dataFrom rt' = dataFrom rt /\ selectedRef rt' = selectedRef rt /\
  interval rt' = interval rt /\ timerCount rt' = timerCount rt.
Proof. unfold filterCleanup. destruct (interval rt) eqn:E; simpl; by rewrite ?E. Qed.


(** A tick of a timer that was cleared does nothing; a tick of a live one
    sends the poll of its closure. *)
Lemma tick_cases (t : nat) (rt : Runtime) :
  step (Tick t) rt = rt \/
  exists f, callbackOf t rt = Some f /\ step (Tick t) rt = send (load f) rt.
Proof. simpl. destruct (callbackOf t rt) as [f|]; [right; by exists f | by left]. Qed.

Lemma step_data (ev : Event) (rt : Runtime) :
  data (hooks (step ev rt)) = data (hooks rt) \/
  exists id d, ev = SettleDrift id (Fulfilled d) /\
               data (hooks (step ev rt)) = Some d.
Proof.
  destruct ev as [t|v|i| |id o|id o|]; simpl.
  - left. by destruct (callbackOf t rt).
  - left. unfold clickFilter. destruct (onScreen rt); [|done].
    destruct (negb _); [done|]. destruct (String.eqb _ _); [done|].
    rewrite filterEffect_hooks. by rewrite (proj1 (filterCleanup_frame _)).
  - left. unfold clickRow. destruct (onScreen rt) as [d|]; [|done].
    destruct (nth_error _ _); [|done]. destruct (sameRef _ _); [done|].
    by rewrite (proj1 (runSelectionEffect_frame _)).
  - left. unfold clickClose. destruct (onScreen rt); [|done].
    destruct (selectedQuery (hooks rt)); [|done].
    by rewrite (proj1 (runSelectionEffect_frame _)).
  - destruct (pending id rt && isDriftFetch id rt); [|by left].
    destruct o as [d|e]; [right; by exists id, d | by left].
  - left. destruct (pending id rt && isExecFetch id rt); [|done].
    by destruct o.
  - left. unfold unmount. cbn [hooks]. by rewrite (proj1 (filterCleanup_frame _)).
Qed.

Lemma step_error (ev : Event) (rt : Runtime) :
  error (hooks (step ev rt)) = error (hooks rt) \/
  exists id e, ev = SettleDrift id (Rejected e) /\
               error (hooks (step ev rt)) = Some (message e).
Proof.
  destruct ev as [t|v|i| |id o|id o|]; simpl.
  - left. by destruct (callbackOf t rt).
  - left. unfold clickFilter. destruct (onScreen rt); [|done].
    destruct (negb _); [done|]. destruct (String.eqb _ _); [done|].
    rewrite filterEffect_hooks. by rewrite (proj1 (filterCleanup_frame _)).
  - left. unfold clickRow. destruct (onScreen rt) as [d|]; [|done].
    destruct (nth_error _ _); [|done]. destruct (sameRef _ _); [done|].
    by rewrite (proj1 (proj2 (runSelectionEffect_frame _))).
  - left. unfold clickClose. destruct (onScreen rt); [|done].
    destruct (selectedQuery (hooks rt)); [|done].
    by rewrite (proj1 (proj2 (runSelectionEffect_frame _))).
  - destruct (pending id rt && isDriftFetch id rt); [|by left].
    destruct o as [d|e]; [by left | right; by exists id, e].
  - left. destruct (pending id rt && isExecFetch id rt); [|done].
    by destruct o.
  - left. unfold unmount. cbn [hooks]. by rewrite (proj1 (filterCleanup_frame _)).
Qed.





(** A settled drift fetch: the calls of its chain are made on the hooks,
    whatever filter the fetch was sent under, mounted or not. *)
Lemma settleDrift_any (rt : Runtime) (id : nat) (o : Outcome DriftData) :
  pending id rt = true -> isDriftFetch id rt = true ->
  let rt' := step (SettleDrift id o) rt in
  hooks rt' = performAll (calls (loadChain o)) (hooks rt) /\
  mounted rt' = mounted rt /\ network rt' = network rt /\
  inflight rt' = settled_out id (inflight rt).
Proof. intros Hp Hd. simpl. by rewrite Hp, Hd. Qed.

Lemma settleDrift_mounted (rt : Runtime) (id : nat) (o : Outcome DriftData) :
  mounted rt = true -> pending id rt = true -> isDriftFetch id rt = true ->
  let rt' := step (SettleDrift id o) rt in
  hooks rt' = performAll (calls (loadChain o)) (hooks rt) /\
  mounted rt' = true /\ network rt' = network rt /\
  inflight rt' = settled_out id (inflight rt).
Proof.
  intros Hm Hp Hd. destruct (settleDrift_any rt id o Hp Hd) as (? & Hm' & ? & ?).
  rewrite Hm in Hm'. done.
Qed.

(** A settled execute fetch: the calls of its chain are made on the hooks,
    whatever query is selected by then, mounted or not. *)
Lemma settleExec_any (rt : Runtime) (id : nat) (o : Outcome ExecResult) :
  pending id rt = true -> isExecFetch id rt = true ->
  let rt' := step (SettleExec id o) rt in
  hooks rt' = performAll (calls (execChain o)) (hooks rt) /\
  mounted rt' = mounted rt /\ network rt' = network rt /\
  inflight rt' = settled_out id (inflight rt).
Proof. intros Hp Hd. simpl. by rewrite Hp, Hd. Qed.

Lemma settleExec_mounted (rt : Runtime) (id : nat) (o : Outcome ExecResult) :
  mounted rt = true -> pending id rt = true -> isExecFetch id rt = true ->
  let rt' := step (SettleExec id o) rt in
  hooks rt' = performAll (calls (execChain o)) (hooks rt) /\
  mounted rt' = true /\ network rt' = network rt /\
  inflight rt' = settled_out id (inflight rt).
Proof.
  intros Hm Hp Hd. destruct (settleExec_any rt id o Hp Hd) as (? & Hm' & ? & ?).
  rewrite Hm in Hm'. done.
Qed.

Lemma drift_pending_settled_out (i j : nat) (l : list nat) :
  i <> j ->
  existsb (Nat.eqb i) (settled_out j l) = existsb (Nat.eqb i) l.
Proof.
  intros Hij. induction l as [|k l IH]; simpl; [done|].
  destruct (Nat.eqb_spec j k) as [->|Hjk]; simpl.
  - rewrite IH. destruct (Nat.eqb_spec i k); [congruence|done].
  - by rewrite IH.
Qed.

(** A click on a row other than the selected one commits the row as the
    selection and runs the effect on it; closing the pane runs it on null. *)
Lemma clickRow_runs_effect (rt : Runtime) (d : DriftData) (i : nat) (s : DriftSample) :
  onScreen rt = Some d -> nth_error (high_drift_samples d) i = Some s ->
  sameRef (selectedRef rt) (dataFrom rt, i) = false ->
  step (ClickRow i) rt =
  runSelectionEffect (withSelection (Some s) (Some (dataFrom rt, i)) rt).
Proof. intros Hs Hi Hr. simpl. unfold clickRow. by rewrite Hs, Hi, Hr. Qed.

Lemma clickClose_runs_effect (rt : Runtime) (d : DriftData) (s : DriftSample) :
  onScreen rt = Some d -> selectedQuery (hooks rt) = Some s ->
  step ClickClose rt = runSelectionEffect (withSelection None None rt).
Proof. intros Hs Hq. simpl. unfold clickClose. by rewrite Hs, Hq. Qed.

(** The effect on [selectedQuery] creates and clears no timer. *)
Lemma runSelectionEffect_timers (rt : Runtime) :
  let rt' := runSelectionEffect rt in
  timers rt' = timers rt /\ interval rt' = interval rt /\
  timerCount rt' = timerCount rt.
Proof.
  unfold runSelectionEffect.
  destruct (selectionEffect_cases (selectedQuery (hooks rt)))
    as [-> | [-> | (q & a & ->)]]; by simpl.
Qed.

(** Timer ticks send requests and leave the hooks alone. *)
Lemma drift_run_ticks (ts : list nat) (rt : Runtime) :
  hooks (run (map Tick ts) rt) = hooks rt.
Proof.
  revert rt. induction ts as [|t ts IH]; intros rt; [done|].
  change (run (map Tick (t :: ts)) rt) with (run (map Tick ts) (step (Tick t) rt)).
  rewrite IH. by destruct (tick_cases t rt) as [-> | (f & _ & ->)].
Qed.

(** The timers stay in order: the cleanup of the effect on [filter] clears
    the timer the effect created, before the effect runs again and when the
    panel is unmounted. *)
Lemma mount_TimersInv : DriftLog.TimersInv mount.
Proof. unfold DriftLog.TimersInv. simpl. exists 0. repeat split. lia. Qed.

Lemma step_TimersInv (ev : Event) (rt : Runtime) :
  DriftLog.TimersInv rt -> DriftLog.TimersInv (step ev rt).
Proof.
  unfold DriftLog.TimersInv. intros H.
  destruct ev as [t|v|i| |id o|id o|]; simpl.
  - by destruct (callbackOf t rt).
  - unfold clickFilter, onScreen.
    destruct (mounted rt) eqn:Hm; simpl; [|by rewrite Hm].
    destruct (negb (truthy (error (hooks rt)))); simpl; [|by rewrite Hm].
    destruct (data (hooks rt)); [|by rewrite Hm].
    destruct (negb _); [by rewrite Hm|].
    destruct (String.eqb _ _); [by rewrite Hm|].
    destruct H as (id & Hi & Hlt & Ht).
    unfold filterEffect, filterCleanup. cbn [interval withHooks]. rewrite Hi.
    cbn. rewrite Hm, Ht. cbn. rewrite Nat.eqb_refl. cbn.
    exists (timerCount rt). repeat split. lia.
  - unfold clickRow. destruct (onScreen rt) as [d|]; [|done].
    destruct (nth_error _ _); [|done]. destruct (sameRef _ _); [done|].
    destruct (runSelectionEffect_timers
                (withSelection (Some d0) (Some (dataFrom rt, i)) rt)) as (-> & -> & ->).
    destruct (runSelectionEffect_frame
                (withSelection (Some d0) (Some (dataFrom rt, i)) rt))
      as (_ & _ & -> & _ & -> & _).
    done.
  - unfold clickClose. destruct (onScreen rt); [|done].
    destruct (selectedQuery (hooks rt)); [|done].
    destruct (runSelectionEffect_timers (withSelection None None rt)) as (-> & -> & ->).
    destruct (runSelectionEffect_frame (withSelection None None rt))
      as (_ & _ & -> & _ & -> & _).
    done.
  - destruct (pending id rt && isDriftFetch id rt); [|done].
    simpl. by destruct o.
  - destruct (pending id rt && isExecFetch id rt); [|done].
    simpl. by destruct o.
  - unfold filterCleanup. destruct (mounted rt).
    + destruct H as (id & Hi & _ & Ht). rewrite Hi. cbn. rewrite Ht. cbn.
      by rewrite Nat.eqb_refl.
    + destruct (interval rt); [cbn|done]. by rewrite H.
Qed.

Lemma run_TimersInv (evs : list Event) (rt : Runtime) :
  DriftLog.TimersInv rt -> DriftLog.TimersInv (run evs rt).
Proof.
  revert rt. induction evs as [|ev evs IH]; intros rt H; [done|].
  apply (IH (step ev rt)), step_TimersInv, H.
Qed.

End DriftFacts.

(** ** Last-known-good data and the error field *)

Module LastKnownGood.
Import Js Promise Api Panels Poller.

Ltac settle_cases ev rt :=
  let id := fresh "id" in let o := fresh "o" in
  let H := fresh "H" in
  destruct (PollerFacts.step_hooks _ ev rt) as [-> | (id & o & -> & _ & ->)];
  [ auto | destruct o; simpl; eauto ].

Lemma metrics_step (ev : Event (panel Metrics)) (rt : Runtime (panel Metrics)) :
  (MetricsPanel.data (hooks (step _ ev rt)) = MetricsPanel.data (hooks rt) \/
   exists id d, ev = Settle id (Fulfilled d) /\
                MetricsPanel.data (hooks (step _ ev rt)) = Some d) /\
  (MetricsPanel.error (hooks (step _ ev rt)) = MetricsPanel.error (hooks rt) \/
   exists id e, ev = Settle id (Rejected e) /\
                MetricsPanel.error (hooks (step _ ev rt)) = Some (message e)).
Proof. split; settle_cases ev rt. Qed.

Lemma errors_step (ev : Event (panel Errors)) (rt : Runtime (panel Errors)) :
  (ErrorsPanel.data (hooks (step _ ev rt)) = ErrorsPanel.data (hooks rt) \/
   exists id d, ev = Settle id (Fulfilled d) /\
                ErrorsPanel.data (hooks (step _ ev rt)) = Some d) /\
  (ErrorsPanel.error (hooks (step _ ev rt)) = ErrorsPanel.error (hooks rt) \/
   exists id e, ev = Settle id (Rejected e) /\
                ErrorsPanel.error (hooks (step _ ev rt)) = Some (message e)).
Proof. split; settle_cases ev rt. Qed.

Lemma metrics_error_sticks (evs : list (Event (panel Metrics))) (rt : Runtime (panel Metrics)) :
  MetricsPanel.error (hooks rt) <> None ->
  MetricsPanel.error (hooks (run _ evs rt)) <> None.
Proof.
  revert rt. induction evs as [|ev evs IH]; intros rt H; [done|].
  apply (IH (step _ ev rt)).
  destruct (proj2 (metrics_step ev rt)) as [-> | (id & e & _ & ->)]; done.
Qed.

Lemma errors_error_sticks (evs : list (Event (panel Errors))) (rt : Runtime (panel Errors)) :
  ErrorsPanel.error (hooks rt) <> None ->
  ErrorsPanel.error (hooks (run _ evs rt)) <> None.
Proof.
  revert rt. induction evs as [|ev evs IH]; intros rt H; [done|].
  apply (IH (step _ ev rt)).
  destruct (proj2 (errors_step ev rt)) as [-> | (id & e & _ & ->)]; done.
Qed.

Lemma drift_error_sticks (evs : list Drift.Event) (rt : Drift.Runtime) :
  Drift.error (Drift.hooks rt) <> None ->
  Drift.error (Drift.hooks (Drift.run evs rt)) <> None.
Proof.
  revert rt. induction evs as [|ev evs IH]; intros rt H; [done|].
  apply (IH (Drift.step ev rt)).
  destruct (DriftFacts.step_error ev rt) as [-> | (id & e & _ & ->)]; done.
Qed.

Section Generic.
Context (P : Panel).

(** Three polls settle one after the other, with timer ticks in between:
    the hooks are what the three chains make of them, in that order. *)
Lemma three_settles (rt : Runtime P) (i j k n1 n2 : nat) (o1 o2 o3 : Outcome Payload) :
  let rt1 := run P (repeat Tick n1) (step P (Settle i o1) rt) in
  let rt2 := run P (repeat Tick n2) (step P (Settle j o2) rt1) in
  let rt3 := step P (Settle k o3) rt2 in
  pending P i rt = true -> pending P j rt1 = true -> pending P k rt2 = true ->
  hooks rt2 = commit P (calls (load o2)) (commit P (calls (load o1)) (hooks rt)) /\
  hooks rt3 = commit P (calls (load o3)) (hooks rt2).
Proof.
  intros rt1 rt2 rt3 Hi Hj Hk.
  assert (Hh1 : hooks rt1 = hooks (step P (Settle i o1) rt))
    by apply PollerFacts.run_ticks.
  assert (Hh2 : hooks rt2 = hooks (step P (Settle j o2) rt1))
    by apply PollerFacts.run_ticks.
  split.
  - by rewrite Hh2, (PollerFacts.step_settle P rt1 j o2 Hj), Hh1,
               (PollerFacts.step_settle P rt i o1 Hi).
  - unfold rt3. by rewrite (PollerFacts.step_settle P rt2 k o3 Hk).
Qed.

End Generic.

(** Success, failure, success on the metrics poll, with timer ticks in
    between: the data of the first success stays until the second lands,
    and the message of the failure stays on after it. *)
Lemma metrics_success_failure_success
      (rt : Runtime (panel Metrics)) (i j k n1 n2 : nat)
      (d1 d2 : MetricsData.t) (e : Error) :
  let rt1 := run (panel Metrics) (repeat Tick n1) (step (panel Metrics) (Settle i (Fulfilled d1)) rt) in
  let rt2 := run (panel Metrics) (repeat Tick n2) (step (panel Metrics) (Settle j (Rejected e)) rt1) in
  let rt3 := step (panel Metrics) (Settle k (Fulfilled d2)) rt2 in
  mounted rt = true -> pending _ i rt = true ->
  pending _ j rt1 = true -> pending _ k rt2 = true ->
  MetricsPanel.data (hooks rt2) = Some d1 /\
  MetricsPanel.error (hooks rt2) = Some (message e) /\
  MetricsPanel.data (hooks rt3) = Some d2 /\
  MetricsPanel.error (hooks rt3) = Some (message e).
Proof.
  intros rt1 rt2 rt3 _ Hi Hj Hk.
  destruct (three_settles (panel Metrics) rt i j k n1 n2
              (Fulfilled d1) (Rejected e) (Fulfilled d2) Hi Hj Hk) as [H2 H3].
  fold rt1 rt2 in H2, H3. fold rt3 in H3. rewrite H3, H2. done.
Qed.

(** The same on the errors poll. *)
Lemma errors_success_failure_success
      (rt : Runtime (panel Errors)) (i j k n1 n2 : nat)
      (d1 d2 : ErrorsData.t) (e : Error) :
  let rt1 := run (panel Errors) (repeat Tick n1) (step (panel Errors) (Settle i (Fulfilled d1)) rt) in
  let rt2 := run (panel Errors) (repeat Tick n2) (step (panel Errors) (Settle j (Rejected e)) rt1) in
  let rt3 := step (panel Errors) (Settle k (Fulfilled d2)) rt2 in
  mounted rt = true -> pending _ i rt = true ->
  pending _ j rt1 = true -> pending _ k rt2 = true ->
  ErrorsPanel.data (hooks rt2) = Some d1 /\
  ErrorsPanel.error (hooks rt2) = Some (message e) /\
  ErrorsPanel.data (hooks rt3) = Some d2 /\
  ErrorsPanel.error (hooks rt3) = Some (message e).
Proof.
  intros rt1 rt2 rt3 _ Hi Hj Hk.
  destruct (three_settles (panel Errors) rt i j k n1 n2
              (Fulfilled d1) (Rejected e) (Fulfilled d2) Hi Hj Hk) as [H2 H3].
  fold rt1 rt2 in H2, H3. fold rt3 in H3. rewrite H3, H2. done.
Qed.

(** The same on the drift poll, with ticks of any timers in between. *)
Lemma drift_success_failure_success
      (rt : Drift.Runtime) (i j k : nat) (ts1 ts2 : list nat)
      (d1 d2 : Drift.DriftData) (e : Error) :
  let rt1 := Drift.run (map Drift.Tick ts1)
                       (Drift.step (Drift.SettleDrift i (Fulfilled d1)) rt) in
  let rt2 := Drift.run (map Drift.Tick ts2)
                       (Drift.step (Drift.SettleDrift j (Rejected e)) rt1) in
  let rt3 := Drift.step (Drift.SettleDrift k (Fulfilled d2)) rt2 in
  Drift.mounted rt = true ->
  Drift.pending i rt = true -> Drift.isDriftFetch i rt = true ->
  Drift.pending j rt1 = true -> Drift.isDriftFetch j rt1 = true ->
  Drift.pending k rt2 = true -> Drift.isDriftFetch k rt2 = true ->
  Drift.data (Drift.hooks rt2) = Some d1 /\
  Drift.error (Drift.hooks rt2) = Some (message e) /\
  Drift.data (Drift.hooks rt3) = Some d2 /\
  Drift.error (Drift.hooks rt3) = Some (message e).
Proof.
  intros rt1 rt2 rt3 _ Hi Hdi Hj Hdj Hk Hdk.
  assert (Hh1 : Drift.hooks rt1 =
                Drift.hooks (Drift.step (Drift.SettleDrift i (Fulfilled d1)) rt))
    by apply DriftFacts.drift_run_ticks.
  assert (Hh2 : Drift.hooks rt2 =
                Drift.hooks (Drift.step (Drift.SettleDrift j (Rejected e)) rt1))
    by apply DriftFacts.drift_run_ticks.
  destruct (DriftFacts.settleDrift_any rt i (Fulfilled d1) Hi Hdi) as (H1 & _).
  destruct (DriftFacts.settleDrift_any rt1 j (Rejected e) Hj Hdj) as (H2 & _).
  destruct (DriftFacts.settleDrift_any rt2 k (Fulfilled d2) Hk Hdk) as (H3 & _).
  unfold rt3. rewrite H3, Hh2, H2, Hh1, H1. done.
Qed.

(** C2, as the code has it: on the pollers that keep an error (metrics,
    errors, drift) [data] changes only when a success lands, to its
    payload, so a failed poll leaves it as it is; [error] changes only when
    a failure lands, to its message, so a success leaves it as it is and
    does not clear it: once set, [error] is never null again.  After
    success, failure, success on any of the three, the data is that of the
    first success until the second lands, and [error] still holds the
    failure's message. *)
Theorem failed_poll_keeps_data_and_success_keeps_error :
  (forall (ev : Event (panel Metrics)) (rt : Runtime (panel Metrics)),
      (MetricsPanel.data (hooks (step _ ev rt)) = MetricsPanel.data (hooks rt) \/
       exists id d, ev = Settle id (Fulfilled d) /\
                    MetricsPanel.data (hooks (step _ ev rt)) = Some d) /\
      (MetricsPanel.error (hooks (step _ ev rt)) = MetricsPanel.error (hooks rt) \/
       exists id e, ev = Settle id (Rejected e) /\
                    MetricsPanel.error (hooks (step _ ev rt)) = Some (message e))) /\
  (forall (ev : Event (panel Errors)) (rt : Runtime (panel Errors)),
      (ErrorsPanel.data (hooks (step _ ev rt)) = ErrorsPanel.data (hooks rt) \/
       exists id d, ev = Settle id (Fulfilled d) /\
                    ErrorsPanel.data (hooks (step _ ev rt)) = Some d) /\
      (ErrorsPanel.error (hooks (step _ ev rt)) = ErrorsPanel.error (hooks rt) \/
       exists id e, ev = Settle id (Rejected e) /\
                    ErrorsPanel.error (hooks (step _ ev rt)) = Some (message e))) /\
  (forall (ev : Drift.Event) (rt : Drift.Runtime),
      (Drift.data (Drift.hooks (Drift.step ev rt)) = Drift.data (Drift.hooks rt) \/
       exists id d, ev = Drift.SettleDrift id (Fulfilled d) /\
                    Drift.data (Drift.hooks (Drift.step ev rt)) = Some d) /\
      (Drift.error (Drift.hooks (Drift.step ev rt)) = Drift.error (Drift.hooks rt) \/
       exists id e, ev = Drift.SettleDrift id (Rejected e) /\
                    Drift.error (Drift.hooks (Drift.step ev rt)) = Some (message e))) /\
  (forall (evs : list (Event (panel Metrics))) (rt : Runtime (panel Metrics)),
      MetricsPanel.error (hooks rt) <> None ->
      MetricsPanel.error (hooks (run _ evs rt)) <> None) /\
  (forall (evs : list (Event (panel Errors))) (rt : Runtime (panel Errors)),
      ErrorsPanel.error (hooks rt) <> None ->
      ErrorsPanel.error (hooks (run _ evs rt)) <> None) /\
  (forall (evs : list Drift.Event) (rt : Drift.Runtime),
      Drift.error (Drift.hooks rt) <> None ->
      Drift.error (Drift.hooks (Drift.run evs rt)) <> None) /\
  (forall (rt : Runtime (panel Metrics)) (i j k n1 n2 : nat)
          (d1 d2 : MetricsData.t) (e : Error),
      let rt1 := run (panel Metrics) (repeat Tick n1) (step (panel Metrics) (Settle i (Fulfilled d1)) rt) in
      let rt2 := run (panel Metrics) (repeat Tick n2) (step (panel Metrics) (Settle j (Rejected e)) rt1) in
      let rt3 := step (panel Metrics) (Settle k (Fulfilled d2)) rt2 in
      mounted rt = true -> pending _ i rt = true ->
      pending _ j rt1 = true -> pending _ k rt2 = true ->
      MetricsPanel.data (hooks rt2) = Some d1 /\
      MetricsPanel.error (hooks rt2) = Some (message e) /\
      MetricsPanel.data (hooks rt3) = Some d2 /\
      MetricsPanel.error (hooks rt3) = Some (message e)) /\
  (forall (rt : Runtime (panel Errors)) (i j k n1 n2 : nat)
          (d1 d2 : ErrorsData.t) (e : Error),
      let rt1 := run (panel Errors) (repeat Tick n1) (step (panel Errors) (Settle i (Fulfilled d1)) rt) in
      let rt2 := run (panel Errors) (repeat Tick n2) (step (panel Errors) (Settle j (Rejected e)) rt1) in
      let rt3 := step (panel Errors) (Settle k (Fulfilled d2)) rt2 in
      mounted rt = true -> pending _ i rt = true ->
      pending _ j rt1 = true -> pending _ k rt2 = true ->
      ErrorsPanel.data (hooks rt2) = Some d1 /\
      ErrorsPanel.error (hooks rt2) = Some (message e) /\
      ErrorsPanel.data (hooks rt3) = Some d2 /\
      ErrorsPanel.error (hooks rt3) = Some (message e)) /\
  (forall (rt : Drift.Runtime) (i j k : nat) (ts1 ts2 : list nat)
          (d1 d2 : Drift.DriftData) (e : Error),
      let rt1 := Drift.run (map Drift.Tick ts1)
                           (Drift.step (Drift.SettleDrift i (Fulfilled d1)) rt) in
      let rt2 := Drift.run (map Drift.Tick ts2)
                           (Drift.step (Drift.SettleDrift j (Rejected e)) rt1) in
      let rt3 := Drift.step (Drift.SettleDrift k (Fulfilled d2)) rt2 in
      Drift.mounted rt = true ->
      Drift.pending i rt = true -> Drift.isDriftFetch i rt = true ->
      Drift.pending j rt1 = true -> Drift.isDriftFetch j rt1 = true ->
      Drift.pending k rt2 = true -> Drift.isDriftFetch k rt2 = true ->
      Drift.data (Drift.hooks rt2) = Some d1 /\
      Drift.error (Drift.hooks rt2) = Some (message e) /\
      Drift.data (Drift.hooks rt3) = Some d2 /\
      Drift.error (Drift.hooks rt3) = Some (message e)).
Proof.
  split; [exact metrics_step|].
  split; [exact errors_step|].
  split; [intros ev rt; split; [apply DriftFacts.step_data | apply DriftFacts.step_error]|].
  split; [exact metrics_error_sticks|].
  split; [exact errors_error_sticks|].
  split; [exact drift_error_sticks|].
  split; [exact metrics_success_failure_success|].
  split; [exact errors_success_failure_success|].
  exact drift_success_failure_success.
Qed.

(** The theorem at the metrics panel just mounted: its first poll
    succeeds, the next one fails, the third succeeds. *)
Lemma failed_poll_keeps_data_and_success_keeps_error_witness :
  let rt := run (panel Metrics)
                [@Settle (panel Metrics) 0 (Fulfilled Scenario.metrics1); Tick;
                 @Settle (panel Metrics) 1 (Rejected Scenario.networkError); Tick;
                 @Settle (panel Metrics) 2 (Fulfilled Scenario.metrics2)] (mount _) in
  MetricsPanel.data (hooks rt) = Some Scenario.metrics2 /\
  MetricsPanel.error (hooks rt) = Some "Network Error".
Proof.
  destruct failed_poll_keeps_data_and_success_keeps_error
    as (_ & _ & _ & _ & _ & _ & H & _).
  apply (H (mount _) 0 1 2 1 1 Scenario.metrics1 Scenario.metrics2
           Scenario.networkError); reflexivity.
Defined.

(** C2, the claim as stated fails: after success, failure, success the
    second success has landed and [error] is not null, on the metrics
    panel and on the drift panel alike; the panel shows the message of the
    failure in place of the newer data. *)
Lemma success_does_not_clear_error :
  let rt := run (panel Metrics)
                [@Settle (panel Metrics) 0 (Fulfilled Scenario.metrics1); Tick;
                 @Settle (panel Metrics) 1 (Rejected Scenario.networkError); Tick;
                 @Settle (panel Metrics) 2 (Fulfilled Scenario.metrics2)] (mount _) in
  let dr := Drift.run
              [Drift.SettleDrift 0 (Fulfilled Scenario.driftAll); Drift.Tick 0;
               Drift.SettleDrift 1 (Rejected Scenario.networkError); Drift.Tick 0;
               Drift.SettleDrift 2 (Fulfilled Scenario.driftAllLater)] Drift.mount in
  MetricsPanel.data (hooks rt) = Some Scenario.metrics2 /\
  MetricsPanel.error (hooks rt) <> None /\
  MetricsPanel.render (hooks rt) = ErrorMessage "Network Error" /\
  Drift.data (Drift.hooks dr) = Some Scenario.driftAllLater /\
  Drift.error (Drift.hooks dr) <> None /\
  Drift.render (Drift.hooks dr) = ErrorMessage "Network Error".
Proof. by vm_compute. Qed.

End LastKnownGood.

(** ** Teardown *)

Module Teardown.
Import Js Promise Api Panels Poller.




End Teardown.

(** ** Order of application *)

Module Ordering.
Import Js Promise Api Panels Poller.

Section Generic.
Context (P : Panel).

(** Two fetches in flight settle one after the other: both chains reach
    the hooks, in the order of settling. *)
Lemma settle_twice (rt : Runtime P) (i j : nat) (oi oj : Outcome Payload) :
  mounted rt = true -> pending P i rt = true -> pending P j rt = true -> i <> j ->
  hooks (run P [Settle j oj; Settle i oi] rt) =
  fold_left (fun h c => perform c h) (calls (load oj) ++ calls (load oi)) (hooks rt).
Proof.
  intros Hm Hi Hj Hij.
  change (run P [Settle j oj; Settle i oi] rt)
    with (step P (Settle i oi) (step P (Settle j oj) rt)).
  rewrite fold_left_app.
  rewrite <- (PollerFacts.step_settle_mounted P rt j oj Hm Hj).
  apply PollerFacts.step_settle_mounted.
  - by apply PollerFacts.step_keeps_mounted.
  - simpl. rewrite Hj. unfold pending. simpl.
    by rewrite PollerFacts.pending_settled_out.
Qed.

(** The timer sends a request whether or not one is in flight. *)
Lemma tick_overlaps (rt : Runtime P) :
  interval rt = true ->
  network (step P Tick rt) = network rt ++ [fetch] /\
  inflight (step P Tick rt) = inflight rt ++ [length (network rt)].
Proof. intros Hi. simpl. by rewrite Hi. Qed.

End Generic.

Lemma drift_settle_twice (rt : Drift.Runtime) (i j : nat) (di dj : Drift.DriftData) :
  Drift.mounted rt = true ->
  Drift.pending i rt = true -> Drift.isDriftFetch i rt = true ->
  Drift.pending j rt = true -> Drift.isDriftFetch j rt = true -> i <> j ->
  Drift.data (Drift.hooks
                (Drift.run [Drift.SettleDrift j (Fulfilled dj);
                            Drift.SettleDrift i (Fulfilled di)] rt)) = Some di.
Proof.
  intros Hm Hi Hdi Hj Hdj Hij.
  change (Drift.run _ rt)
    with (Drift.step (Drift.SettleDrift i (Fulfilled di))
                     (Drift.step (Drift.SettleDrift j (Fulfilled dj)) rt)).
  destruct (DriftFacts.settleDrift_mounted rt j (Fulfilled dj) Hm Hj Hdj)
    as (_ & Hm' & Hn' & Hin').
  destruct (DriftFacts.settleDrift_mounted
              (Drift.step (Drift.SettleDrift j (Fulfilled dj)) rt) i (Fulfilled di))
    as (-> & _); [done| | |done].
  - unfold Drift.pending. rewrite Hin'. by rewrite DriftFacts.drift_pending_settled_out.
  - unfold Drift.isDriftFetch. by rewrite Hn'.
Qed.

(** C7, as the code has it: a poller keeps no sequence number and drops
    no response.  The timer sends a request on every tick, whether or not
    one is in flight; when two fetches in flight settle one after the
    other, both are applied, in the order of settling, so [data] holds the
    payload of the one that settled last, whichever was sent first. *)
Theorem last_settled_response_wins :
  (forall (P : Panel) (rt : Runtime P) (i j : nat) (oi oj : Outcome Payload),
      mounted rt = true -> pending P i rt = true -> pending P j rt = true ->
      i <> j ->
      hooks (run P [Settle j oj; Settle i oi] rt) =
      fold_left (fun h c => perform c h) (calls (load oj) ++ calls (load oi))
                (hooks rt)) /\
  (forall (P : Panel) (rt : Runtime P),
      interval rt = true ->
      network (step P Tick rt) = network rt ++ [fetch] /\
      inflight (step P Tick rt) = inflight rt ++ [length (network rt)]) /\
  (forall (rt : Runtime (panel Metrics)) (i j : nat) (di dj : MetricsData.t),
      mounted rt = true -> pending _ i rt = true -> pending _ j rt = true ->
      i <> j ->
      MetricsPanel.data
        (hooks (run (panel Metrics)
                    [@Settle (panel Metrics) j (Fulfilled dj);
                     @Settle (panel Metrics) i (Fulfilled di)] rt)) = Some di) /\
  (forall (rt : Drift.Runtime) (i j : nat) (di dj : Drift.DriftData),
      Drift.mounted rt = true ->
      Drift.pending i rt = true -> Drift.isDriftFetch i rt = true ->
      Drift.pending j rt = true -> Drift.isDriftFetch j rt = true -> i <> j ->
      Drift.data (Drift.hooks
                    (Drift.run [Drift.SettleDrift j (Fulfilled dj);
                                Drift.SettleDrift i (Fulfilled di)] rt)) = Some di).
Proof.
  split; [exact settle_twice|].
  split; [exact tick_overlaps|].
  split; [|exact drift_settle_twice].
  intros rt i j di dj Hm Hi Hj Hij.
  by rewrite (settle_twice (panel Metrics) rt i j (Fulfilled di) (Fulfilled dj)).
Qed.

(** The theorem at the metrics panel after one tick: the polls of the
    mount (0) and of the tick (1) are both in flight; 1 settles first,
    then 0. *)
Lemma last_settled_response_wins_witness :
  MetricsPanel.data
    (hooks (run (panel Metrics)
                [@Settle (panel Metrics) 1 (Fulfilled Scenario.metrics2);
                 @Settle (panel Metrics) 0 (Fulfilled Scenario.metrics1)]
                (step (panel Metrics) Tick (mount _)))) = Some Scenario.metrics1.
Proof.
  destruct last_settled_response_wins as (_ & _ & H & _).
  apply (H (step (panel Metrics) Tick (mount _)) 0 1); [reflexivity..|lia].
Defined.

(** C7, the claim as stated fails: the metrics poll sent on mount (0) is
    answered after the poll sent by the next tick (1) has been applied, and
    it is applied all the same, so [data] goes back from the newer payload
    to the older one. *)
Lemma older_response_overwrites_newer :
  let before := run (panel Metrics)
                    [Tick; @Settle (panel Metrics) 1 (Fulfilled Scenario.metrics2)]
                    (mount _) in
  let after := step (panel Metrics)
                    (@Settle (panel Metrics) 0 (Fulfilled Scenario.metrics1)) before in
  network before = [GetMetrics; GetMetrics] /\
  inflight before = [0] /\
  MetricsPanel.data (hooks before) = Some Scenario.metrics2 /\
  MetricsPanel.data (hooks after) = Some Scenario.metrics1 /\
  Scenario.metrics1 <> Scenario.metrics2.
Proof. by vm_compute. Qed.

End Ordering.

(** ** Failed fetches *)

Module ErrorHandling.
Import Js Promise Api Panels Poller.











End ErrorHandling.

(** ** The scoped drift poll *)

Module Scope.
Import Js Promise Api Drift.

(** A click on another filter button of the panel on screen: the cleanup
    of the effect on [filter], and the effect again. *)
Lemma clickFilter_runs_effect (rt : Runtime) (v : string) :
  onScreen rt <> None ->
  existsb (String.eqb v) FILTERS = true ->
  v <> filter (hooks rt) ->
  step (ClickFilter v) rt =
  filterEffect (filterCleanup (withHooks (perform (SetFilter v) (hooks rt)) rt)).
Proof.
  intros Hs Hv Hne. simpl. unfold clickFilter.
  destruct (onScreen rt); [|done]. rewrite Hv. simpl.
  apply String.eqb_neq in Hne. by rewrite Hne.
Qed.

(** C3, as the code has it: when the filter changes to another value the
    cleanup clears the timer of the old filter, a fetch under the new
    filter goes out at once and a new timer is started for it; [data] stays
    as it is, and the fetches already in flight stay in flight.  On a panel
    brought there by events from its mount the new timer is the only one
    live: the old one fires no more.  No response is tied to the filter it
    was sent under: whichever drift fetch settles next with a payload,
    sent under the old filter or the new one, that payload becomes
    [data]. *)
Theorem filter_change_refetches_and_merges_any_response :
  (forall (rt : Runtime) (v : string),
      onScreen rt <> None ->
      existsb (String.eqb v) FILTERS = true ->
      v <> filter (hooks rt) ->
      let rt' := step (ClickFilter v) rt in
      filter (hooks rt') = v /\
      data (hooks rt') = data (hooks rt) /\
      network rt' = network rt ++ [load v] /\
      inflight rt' = inflight rt ++ [length (network rt)] /\
      timers rt' = timers (filterCleanup rt) ++ [(timerCount rt, v)] /\
      interval rt' = Some (timerCount rt) /\
      (forall id d,
          pending id rt' = true -> isDriftFetch id rt' = true ->
          data (hooks (step (SettleDrift id (Fulfilled d)) rt')) = Some d)) /\
  (forall (evs : list Event) (v : string),
      let rt := run evs mount in
      onScreen rt <> None ->
      existsb (String.eqb v) FILTERS = true ->
      v <> filter (hooks rt) ->
      let rt' := step (ClickFilter v) rt in
      timers rt' = [(timerCount rt, v)] /\
      (forall t, In t (map fst (timers rt)) -> step (Tick t) rt' = rt')).
Proof.
  split.
  - intros rt v Hs Hv Hne rt'.
    assert (Hrt' : rt' = filterEffect
                           (filterCleanup (withHooks (perform (SetFilter v) (hooks rt)) rt)))
      by by apply clickFilter_runs_effect.
    rewrite Hrt'.
    split; [|split; [|split; [|split; [|split; [|split]]]]].
    + rewrite DriftFacts.filterEffect_hooks.
      by rewrite (proj1 (DriftFacts.filterCleanup_frame _)).
    + rewrite DriftFacts.filterEffect_hooks.
      by rewrite (proj1 (DriftFacts.filterCleanup_frame _)).
    + unfold filterEffect. cbn [network setInterval send].
      rewrite (proj1 (proj2 (proj2 (DriftFacts.filterCleanup_frame _)))).
      rewrite (proj1 (DriftFacts.filterCleanup_frame _)). done.
    + unfold filterEffect. cbn [inflight setInterval send].
      rewrite (proj1 (proj2 (proj2 (proj2 (DriftFacts.filterCleanup_frame _))))).
      rewrite (proj1 (proj2 (proj2 (DriftFacts.filterCleanup_frame _)))). done.
    + unfold filterEffect. cbn [timers timerCount hooks setInterval send].
      rewrite (proj1 (DriftFacts.filterCleanup_frame _)).
      rewrite (proj2 (proj2 (proj2 (proj2 (proj2 (proj2 (proj2 (proj2
                (DriftFacts.filterCleanup_frame _))))))))).
      unfold filterCleanup. cbn [interval withHooks].
      by destruct (interval rt).
    + unfold filterEffect. cbn [interval timerCount setInterval send].
      by rewrite (proj2 (proj2 (proj2 (proj2 (proj2 (proj2 (proj2 (proj2
                   (DriftFacts.filterCleanup_frame _))))))))).
    + intros id d Hp Hd.
      by destruct (DriftFacts.settleDrift_any
                     (filterEffect
                        (filterCleanup (withHooks (perform (SetFilter v) (hooks rt)) rt)))
                     id (Fulfilled d) Hp Hd) as (-> & _).
  - intros evs v rt Hs Hv Hne rt'.
    pose proof (DriftFacts.run_TimersInv evs _ DriftFacts.mount_TimersInv) as Ht.
    fold rt in Ht. unfold DriftLog.TimersInv in Ht.
    assert (Hm : mounted rt = true).
    { unfold onScreen in Hs. by destruct (mounted rt). }
    rewrite Hm in Ht. destruct Ht as (id & Hi & Hlt & Ht).
    assert (Hrt' : timers rt' = [(timerCount rt, v)]).
    { unfold rt'. rewrite (clickFilter_runs_effect rt v Hs Hv Hne).
      unfold filterEffect, filterCleanup. cbn [interval withHooks]. rewrite Hi.
      cbn. rewrite Ht. cbn. by rewrite Nat.eqb_refl. }
    split; [exact Hrt'|].
    intros t Hin. rewrite Ht in Hin. destruct Hin as [<-|[]].
    simpl. unfold callbackOf. fold rt'. rewrite Hrt'. cbn.
    destruct (Nat.eqb_spec (timerCount rt) id) as [Heq|]; [lia|done].
Qed.

(** The theorem at the panel with its table on screen: 'spend' is clicked
    while the unscoped poll of the last tick is in flight.  The timer of
    the mount (0) is gone, the one of the click (1) polls under 'spend'. *)
Lemma filter_change_refetches_and_merges_any_response_witness :
  let rt := run [SettleDrift 0 (Fulfilled Scenario.driftAll); Tick 0] mount in
  let rt' := step (ClickFilter "spend") rt in
  timers rt = [(0, "")] /\
  timers rt' = [(1, "spend")] /\
  step (Tick 0) rt' = rt' /\
  network (step (Tick 1) rt') =
  [GetDrift None; GetDrift None; GetDrift (Some "spend"); GetDrift (Some "spend")].
Proof.
  destruct filter_change_refetches_and_merges_any_response as (_ & H).
  destruct (H [SettleDrift 0 (Fulfilled Scenario.driftAll); Tick 0] "spend")
    as (Ht & Hold); [discriminate|reflexivity|discriminate|].
  split; [reflexivity|]. split; [exact Ht|].
  split; [apply Hold; by left | reflexivity].
Defined.

(** C3, the claim as stated fails: the unscoped poll sent by a tick (1) is
    still in flight when 'spend' is clicked; the fetch under 'spend' (2)
    is answered first, the unscoped one after it, and its payload replaces
    the scoped one while the filter is 'spend'. *)
Lemma old_scope_response_replaces_new_scope_data :
  let before := run [Tick 0; ClickFilter "spend";
                     SettleDrift 2 (Fulfilled Scenario.driftSpend)] Scenario.loaded in
  let after := step (SettleDrift 1 (Fulfilled Scenario.driftAllLater)) before in
  network before = [GetDrift None; GetDrift None; GetDrift (Some "spend")] /\
  filter (hooks before) = "spend" /\
  data (hooks before) = Some Scenario.driftSpend /\
  filter (hooks after) = "spend" /\
  data (hooks after) = Some Scenario.driftAllLater /\
  Scenario.driftAllLater <> Scenario.driftSpend.
Proof. by vm_compute. Qed.

End Scope.

(** ** The cascading execute fetch *)

Module Cascade.
Import Js Promise Api Drift.

(** The placeholder is not the empty string, so a payload that contains
    it is truthy. *)
Lemma includes_placeholder_nonempty (q : string) :
  includes q "Not Available" = true -> q <> "".
Proof. by intros H ->. Qed.

Lemma selectionEffect_truthy (s : DriftSample) (q a : string) :
  sql s = Some q -> agent_type s = Some a -> q <> "" -> a <> "" ->
  selectionEffect (Some s) =
  if includes q "Not Available"
  then ([SetExecResult (Some noSqlRecorded)], None)
  else ([SetExecLoading true], Some (executeSql q a)).
Proof.
  intros Hq Ha Hqn Han. unfold selectionEffect. simpl. rewrite Hq, Ha. simpl.
  apply String.eqb_neq in Hqn, Han. by rewrite Hqn, Han.
Qed.


(** C1, as the code has it: the fetcher keeps no token.  When an execute
    fetch settles, its response (or the error-tagged result of its
    failure) becomes [execResult] and [execLoading] becomes false,
    whatever query is selected by then; the selection is left as it is. *)
Theorem execute_response_applied_whatever_selection
        (rt : Runtime) (id : nat) (o : Outcome ExecResult) :
  mounted rt = true -> pending id rt = true -> isExecFetch id rt = true ->
  let rt' := step (SettleExec id o) rt in
  execResult (hooks rt') =
    Some (match o with
          | Fulfilled res => res
          | Rejected err => errorResult err
          end) /\
  execLoading (hooks rt') = false /\
  selectedQuery (hooks rt') = selectedQuery (hooks rt) /\
  inflight rt' = settled_out id (inflight rt).
Proof.
  intros Hm Hp Hd rt'. unfold rt'.
  destruct (DriftFacts.settleExec_mounted rt id o Hm Hp Hd) as (-> & _ & _ & ->).
  by destruct o.
Qed.

(** The theorem at the race: X is selected, then Y; Y's fetch (2) has been
    answered and X's fetch (1) settles now. *)
Lemma execute_response_applied_whatever_selection_witness :
  let rt := run [ClickRow 0; ClickRow 1; SettleExec 2 (Fulfilled Scenario.rowsY)]
                Scenario.loaded in
  let rt' := step (SettleExec 1 (Fulfilled Scenario.rowsX)) rt in
  execResult (hooks rt') = Some Scenario.rowsX /\
  execLoading (hooks rt') = false /\
  selectedQuery (hooks rt') = selectedQuery (hooks rt) /\
  inflight rt' = settled_out 1 (inflight rt).
Proof.
  apply (execute_response_applied_whatever_selection
           (run [ClickRow 0; ClickRow 1; SettleExec 2 (Fulfilled Scenario.rowsY)]
                Scenario.loaded) 1 (Fulfilled Scenario.rowsX)); reflexivity.
Defined.

(** C1, the claim as stated fails.  X is selected, then Y before X's fetch
    (1) is answered; Y's fetch (2) is answered first and its rows are
    shown; when X's fetch is answered the hooks change: Y is still
    selected and the result is X's.  The same happens when the selection
    was closed in between: X's rows land with nothing selected. *)
Lemma superseded_response_overwrites_current :
  let before := run [ClickRow 0; ClickRow 1; SettleExec 2 (Fulfilled Scenario.rowsY)]
                    Scenario.loaded in
  let after := step (SettleExec 1 (Fulfilled Scenario.rowsX)) before in
  let closed := run [ClickRow 0; ClickClose; SettleExec 1 (Fulfilled Scenario.rowsX)]
                    Scenario.loaded in
  nth_error (network before) 1 = Some (executeSql "SELECT 1" "spend") /\
  nth_error (network before) 2 = Some (executeSql "SELECT 2" "demand") /\
  selectedQuery (hooks before) = Some Scenario.queryY /\
  execResult (hooks before) = Some Scenario.rowsY /\
  selectedQuery (hooks after) = Some Scenario.queryY /\
  execResult (hooks after) = Some Scenario.rowsX /\
  hooks after <> hooks before /\
  selectedQuery (hooks closed) = None /\
  execResult (hooks closed) = Some Scenario.rowsX.
Proof. by vm_compute. Qed.

(** C8, as the code has it: for a selection with a truthy [agent_type]
    whose [sql] contains 'Not Available', the effect sets the result to
    the synthetic error result at once and sends no request; [execLoading]
    is left as it is. *)
Theorem placeholder_sql_yields_synthetic_error
        (rt : Runtime) (s : DriftSample) (q a : string) :
  selectedQuery (hooks rt) = Some s ->
  sql s = Some q -> agent_type s = Some a -> a <> "" ->
  includes q "Not Available" = true ->
  let rt' := runSelectionEffect rt in
  selectionEffect (Some s) = ([SetExecResult (Some noSqlRecorded)], None) /\
  execResult (hooks rt') = Some noSqlRecorded /\
  status noSqlRecorded = "error" /\
  execLoading (hooks rt') = execLoading (hooks rt) /\
  network rt' = network rt /\
  inflight rt' = inflight rt.
Proof.
  intros Hsel Hq Ha Han Hinc rt'.
  pose proof (selectionEffect_truthy s q a Hq Ha
                (includes_placeholder_nonempty q Hinc) Han) as He.
  rewrite Hinc in He. split; [exact He|].
  unfold rt', runSelectionEffect. by rewrite Hsel, He.
Qed.

(** The theorem at the row whose SQL is the placeholder and whose agent is
    'spend', clicked in the table. *)
Lemma placeholder_sql_yields_synthetic_error_witness :
  let rt := withSelection (Some Scenario.queryPlaceholder) (Some (0, 2))
                          Scenario.loaded in
  let rt' := runSelectionEffect rt in
  selectionEffect (Some Scenario.queryPlaceholder) =
    ([SetExecResult (Some noSqlRecorded)], None) /\
  execResult (hooks rt') = Some noSqlRecorded /\
  status noSqlRecorded = "error" /\
  execLoading (hooks rt') = execLoading (hooks rt) /\
  network rt' = network rt /\
  inflight rt' = inflight rt.
Proof.
  apply (placeholder_sql_yields_synthetic_error
           (withSelection (Some Scenario.queryPlaceholder) (Some (0, 2)) Scenario.loaded)
           Scenario.queryPlaceholder "Not Available" "spend");
    [reflexivity..|discriminate|reflexivity].
Defined.

(** C8, the claim as stated fails: a selection whose SQL is the
    placeholder and which names no agent is caught by the first guard of
    the effect; its result is cleared to null, not set to the synthetic
    error result. *)
Lemma placeholder_without_agent_is_cleared :
  let rt' := step (ClickRow 3) Scenario.loaded in
  sql Scenario.queryOrphan = Some "Not Available" /\
  selectedQuery (hooks rt') = Some Scenario.queryOrphan /\
  selectionEffect (Some Scenario.queryOrphan) = ([SetExecResult None], None) /\
  execResult (hooks rt') = None /\
  execResult (hooks rt') <> Some noSqlRecorded.
Proof. by vm_compute. Qed.

(** C9, as the code has it: for a selection with truthy [sql] and
    [agent_type] whose [sql] does not contain the placeholder, the effect
    sets [execLoading] to true and sends [executeSql(sql, agent_type)];
    [execResult] is left as it is, and the output box shows the loading
    line for as long as [execLoading] is true.  When the fetch fails, the
    message of the failure is the [error] of the error-tagged result. *)
Theorem executable_selection_sets_loading_and_fetches
        (rt : Runtime) (s : DriftSample) (q a : string) :
  selectedQuery (hooks rt) = Some s ->
  sql s = Some q -> agent_type s = Some a -> q <> "" -> a <> "" ->
  includes q "Not Available" = false ->
  let rt' := runSelectionEffect rt in
  execLoading (hooks rt') = true /\
  execResult (hooks rt') = execResult (hooks rt) /\
  network rt' = network rt ++ [executeSql q a] /\
  inflight rt' = inflight rt ++ [length (network rt)] /\
  renderOutput (hooks rt') = LoadingOutput /\
  (forall err,
      calls (execChain (Rejected err)) =
        [SetExecResult (Some (errorResult err)); SetExecLoading false] /\
      Api.error (errorResult err) = Some (message err)).
Proof.
  intros Hsel Hq Ha Hqn Han Hinc rt'.
  pose proof (selectionEffect_truthy s q a Hq Ha Hqn Han) as He.
  rewrite Hinc in He.
  unfold rt', runSelectionEffect. by rewrite Hsel, He.
Qed.

(** The theorem at row Y, clicked while the rows of X are shown. *)
Lemma executable_selection_sets_loading_and_fetches_witness :
  let shown := run [ClickRow 0; SettleExec 1 (Fulfilled Scenario.rowsX)]
                   Scenario.loaded in
  let rt := withSelection (Some Scenario.queryY) (Some (0, 1)) shown in
  let rt' := runSelectionEffect rt in
  execLoading (hooks rt') = true /\
  execResult (hooks rt') = execResult (hooks rt) /\
  network rt' = network rt ++ [executeSql "SELECT 2" "demand"] /\
  inflight rt' = inflight rt ++ [length (network rt)] /\
  renderOutput (hooks rt') = LoadingOutput /\
  (forall err,
      calls (execChain (Rejected err)) =
        [SetExecResult (Some (errorResult err)); SetExecLoading false] /\
      Api.error (errorResult err) = Some (message err)).
Proof.
  apply (executable_selection_sets_loading_and_fetches
           (withSelection (Some Scenario.queryY) (Some (0, 1))
              (run [ClickRow 0; SettleExec 1 (Fulfilled Scenario.rowsX)]
                   Scenario.loaded))
           Scenario.queryY "SELECT 2" "demand");
    [reflexivity..|discriminate|discriminate|reflexivity].
Defined.

(** C9, the claim as stated fails.  The rows of X are shown and Y is
    clicked: the result is still X's, not null, while Y's fetch is in
    flight.  And when Y is clicked before X's fetch (1) is answered, that
    answer clears [execLoading]: X's rows are on screen while Y is
    selected and Y's fetch (2) is still in flight. *)
Lemma new_selection_keeps_previous_result :
  let shown := run [ClickRow 0; SettleExec 1 (Fulfilled Scenario.rowsX)]
                   Scenario.loaded in
  let next := step (ClickRow 1) shown in
  let raced := run [ClickRow 0; ClickRow 1; SettleExec 1 (Fulfilled Scenario.rowsX)]
                   Scenario.loaded in
  selectedQuery (hooks next) = Some Scenario.queryY /\
  inflight next = [2] /\
  execLoading (hooks next) = true /\
  execResult (hooks next) = Some Scenario.rowsX /\
  execResult (hooks next) <> None /\
  selectedQuery (hooks raced) = Some Scenario.queryY /\
  inflight raced = [2] /\
  renderOutput (hooks raced) = OutputTable [JObj [("vendor", JStr "acme")]].
Proof. by vm_compute. Qed.




End Cascade.

(** * Further properties of the code *)

(** ** The bearer token *)

Module AuthFacts.
Import Js Auth.

Lemma afterCalls_last (tokens : list (option string)) (t : option string) :
  afterCalls (tokens ++ [t]) = t.
Proof. unfold afterCalls. by rewrite fold_left_app. Qed.

(** Whatever tokens were set before, a request is signed with the one set
    last: when that one is truthy the [Authorization] header is 'Bearer '
    followed by it, and when it is null or empty the configuration goes out
    as it came, with whatever [Authorization] it already had.  No other
    header and not the url is touched. *)
Theorem request_is_signed_with_last_token
        (tokens : list (option string)) (t : option string) (config : Config) :
  let sent := intercept (afterCalls (tokens ++ [t])) config in
  url sent = url config /\
  (forall k, k <> "Authorization" -> headers sent !! k = headers config !! k) /\
  headers sent !! "Authorization" =
    (if truthy t then String.append "Bearer " <$> t
     else headers config !! "Authorization") /\
  (truthy t = false -> sent = config).
Proof.
  rewrite afterCalls_last. unfold intercept.
  destruct t as [tok|]; [|done].
  destruct (truthy (Some tok)) eqn:Ht; [|done].
  simpl. split; [done|]. split; [|split; [|done]].
  - intros k Hk. by rewrite lookup_insert_ne.
  - by rewrite lookup_insert_eq.
Qed.

End AuthFacts.

(** ** The KPI cards of the alerts panel *)

Module AlertsFacts.
Import Js JsObject AlertsView.




End AlertsFacts.

(** ** Category labels of the errors panel *)

Module ErrorsFacts.
Import Stdlib.Strings.Ascii.
Import ErrorsView.

(** The label of a category has the length of its name and, position by
    position, its characters, with a space wherever the name has an
    underscore: no underscore is left, so relabelling a label changes
    nothing, and a name without underscores is its own label. *)
Theorem categoryLabel_replaces_every_underscore (cat : string) :
  String.length (categoryLabel cat) = String.length cat /\
  (forall n, String.get n (categoryLabel cat) =
             (fun c => if Ascii.eqb c "_" then " "%char else c) <$> String.get n cat) /\
  (forall n, String.get n (categoryLabel cat) <> Some "_"%char) /\
  categoryLabel (categoryLabel cat) = categoryLabel cat /\
  ((forall n, String.get n cat <> Some "_"%char) -> categoryLabel cat = cat).
Proof.
  induction cat as [|c rest (IH1 & IH2 & IH3 & IH4 & IH5)].
  - repeat split; done.
  - cbn [categoryLabel String.length]. split; [by rewrite IH1|].
    split; [intros [|n]; [done | apply IH2]|].
    split.
    { intros [|n]; [|apply IH3]. cbn.
      destruct (Ascii.eqb_spec c "_"); [done | congruence]. }
    split.
    { cbn [categoryLabel]. rewrite IH4. f_equal.
      destruct (Ascii.eqb_spec c "_"); [done|].
      by destruct (Ascii.eqb_spec c "_"). }
    intros H. rewrite IH5 by (intros n; apply (H (S n))).
    f_equal. destruct (Ascii.eqb_spec c "_") as [->|]; [|done].
    by destruct (H 0).
Qed.

Example categoryLabel_sql_generation_error :
  categoryLabel "SQL_GENERATION_ERROR" = "SQL GENERATION ERROR".
Proof. reflexivity. Qed.

End ErrorsFacts.

(** ** The search box and the table of the executions panel *)

Module ExecutionsFacts.
Import Js JsObject Promise Panels Poller ExecutionsView.

Lemma includes_empty (s : string) : includes s "" = true.
Proof. by destruct s. Qed.

Lemma includes_in_empty (t : string) : includes "" t = true <-> t = "".
Proof. by destruct t. Qed.

Lemma filter_all {A : Type} (f : A -> bool) (l : list A) :
  (forall x, f x = true) -> List.filter f l = l.
Proof. intros H. induction l as [|x l IH]; [done|]. simpl. by rewrite H, IH. Qed.

Lemma filter_is_sublist {A : Type} (f : A -> bool) (l : list A) :
  sublist (List.filter f l) l.
Proof.
  induction l as [|x l IH]; simpl; [constructor|].
  destruct (f x); by constructor.
Qed.

(** With the search box empty every run is listed.  Whatever is typed, the
    rows listed are runs of the last poll, in their order.  A run that has
    no prompt, no dataset and no verdict is listed only while the box is
    empty.  The lowering is any function that keeps the empty string empty
    and nothing else, as [toLowerCase] does. *)
Theorem search_box_narrows_the_runs
        (toLowerCase : string -> string) (h : ExecutionsPanel.Hooks) :
  toLowerCase "" = "" ->
  (forall t, toLowerCase t = "" -> t = "") ->
  forallb searchable (ExecutionsPanel.runs h) = true ->
  (ExecutionsPanel.searchTerm h = "" ->
   filteredRuns toLowerCase h = ExecutionsPanel.runs h) /\
  sublist (filteredRuns toLowerCase h) (ExecutionsPanel.runs h) /\
  (forall run,
      textOf "prompt" run = "" -> textOf "dataset" run = "" ->
      textOf "correctness_verdict" run = "" ->
      (In run (filteredRuns toLowerCase h) <->
       In run (ExecutionsPanel.runs h) /\ ExecutionsPanel.searchTerm h = "")).
Proof.
  intros H0 H1 _. unfold filteredRuns. split; [|split].
  - intros ->. apply filter_all. intros run. unfold matches.
    by rewrite H0, includes_empty.
  - apply filter_is_sublist.
  - intros run Hp Hd Hv. rewrite filter_In. unfold matches.
    rewrite Hp, Hd, Hv, H0, !orb_diag, includes_in_empty.
    split; intros [Hin Ht]; (split; [done|]); [by apply H1 | by rewrite Ht].
Qed.

(** The theorem at three runs, one of them without any text, with 'FAIL'
    typed in the box. *)
Lemma search_box_narrows_the_runs_witness :
  let bare := JObj [("query_id", JStr "r3")] in
  let h := {| ExecutionsPanel.runs :=
                [JObj [("prompt", JStr "Spend by vendor"); ("dataset", JStr "spend");
                       ("correctness_verdict", JStr "PASS")];
                 JObj [("prompt", JStr "Demand by week"); ("dataset", JNull);
                       ("correctness_verdict", JStr "fail")];
                 bare];
              ExecutionsPanel.loading := false;
              ExecutionsPanel.searchTerm := "FAIL" |} in
  sublist (filteredRuns asciiLower h) (ExecutionsPanel.runs h) /\
  ~ In bare (filteredRuns asciiLower h) /\
  length (filteredRuns asciiLower h) = 1.
Proof.
  intros bare h.
  destruct (search_box_narrows_the_runs asciiLower h) as (_ & Hs & Hb);
    [reflexivity | by intros [|c t] | reflexivity |].
  split; [exact Hs|]. split; [|reflexivity].
  intros Hin. by apply (Hb bare) in Hin as [_ Ht].
Defined.





End ExecutionsFacts.

(** ** Requests follow the timer *)

Module CadenceFacts.
Import Js Promise Api Panels Poller Cadence.

Section Generic.
Context (P : Panel).



End Generic.





End CadenceFacts.

(** ** The loading line of the alerts panel *)

Module LoadingFacts.
Import Js Promise Api Panels Poller.

Lemma alerts_step_loading (ev : Event (panel Alerts)) (rt : Runtime (panel Alerts)) :
  (AlertsPanel.loading (hooks rt) = false ->
   AlertsPanel.loading (hooks (step _ ev rt)) = false) /\
  ((AlertsPanel.loading (hooks rt) = true -> AlertsPanel.alerts (hooks rt) = []) ->
   AlertsPanel.loading (hooks (step _ ev rt)) = true ->
   AlertsPanel.alerts (hooks (step _ ev rt)) = []).
Proof.
  destruct (PollerFacts.step_hooks _ ev rt) as [-> | (id & o & _ & _ & ->)];
    [done|]. by destruct o.
Qed.

Lemma alerts_run_loading (evs : list (Event (panel Alerts))) (rt : Runtime (panel Alerts)) :
  (AlertsPanel.loading (hooks rt) = false ->
   AlertsPanel.loading (hooks (run _ evs rt)) = false) /\
  ((AlertsPanel.loading (hooks rt) = true -> AlertsPanel.alerts (hooks rt) = []) ->
   AlertsPanel.loading (hooks (run _ evs rt)) = true ->
   AlertsPanel.alerts (hooks (run _ evs rt)) = []).
Proof.
  revert rt. induction evs as [|ev evs IH]; intros rt; [done|].
  destruct (alerts_step_loading ev rt) as [H1 H2].
  destruct (IH (step _ ev rt)) as [H3 H4]. split.
  - intros H. apply H3, H1, H.
  - intros H. apply H4, H2, H.
Qed.

(** The alerts panel shows its loading line only until the first answer.
    The first fetch that settles on the mounted panel, good or bad, clears
    [loading], and nothing sets it again; while it is set the list is empty.
    So the panel renders the loading line exactly while [loading] is set,
    and when the very first fetch fails it renders the empty list, which
    reads 'No active alerts. System healthy.' *)
Theorem alerts_loading_line_only_before_first_answer :
  (forall (rt : Runtime (panel Alerts)) (id : nat) (o : Outcome (list Json)),
      mounted rt = true -> pending _ id rt = true ->
      AlertsPanel.loading (hooks (step (panel Alerts) (Settle id o) rt)) = false) /\
  (forall (evs : list (Event (panel Alerts))) (rt : Runtime (panel Alerts)),
      AlertsPanel.loading (hooks rt) = false ->
      AlertsPanel.loading (hooks (run _ evs rt)) = false) /\
  (forall (evs : list (Event (panel Alerts))),
      let h := hooks (run _ evs (mount (panel Alerts))) in
      AlertsPanel.render h = Placeholder <-> AlertsPanel.loading h = true) /\
  (forall (e : Error),
      AlertsPanel.render
        (hooks (step (panel Alerts) (Settle 0 (Rejected e)) (mount _))) = Content []).
Proof.
  split; [|split; [|split]].
  - intros rt id o Hm Hp.
    rewrite (PollerFacts.step_settle_mounted _ rt id o Hm Hp). by destruct o.
  - intros evs rt. apply alerts_run_loading.
  - intros evs h.
    pose proof (proj2 (alerts_run_loading evs (mount (panel Alerts)))) as Hinv.
    fold h in Hinv. unfold AlertsPanel.render.
    destruct (AlertsPanel.loading h) eqn:Hl.
    + rewrite Hinv; done.
    + done.
  - done.
Qed.

(** The theorem at the panel just mounted, whose first fetch fails and
    whose second, sent by the next tick, brings an empty list. *)
Lemma alerts_loading_line_only_before_first_answer_witness :
  let rt := step (panel Alerts)
                 (@Settle (panel Alerts) 0 (Rejected Scenario.networkError)) (mount _) in
  AlertsPanel.loading (hooks rt) = false /\
  AlertsPanel.loading
    (hooks (run (panel Alerts) [Tick; @Settle (panel Alerts) 1 (Fulfilled [])] rt)) = false.
Proof.
  destruct alerts_loading_line_only_before_first_answer as (H1 & H2 & _).
  split.
  - apply (H1 (mount (panel Alerts)) 0 (Rejected Scenario.networkError)); reflexivity.
  - apply (H2 [Tick; @Settle (panel Alerts) 1 (Fulfilled [])]). reflexivity.
Defined.

End LoadingFacts.

(** ** What the drift panel sends *)

Module DriftRequests.
Import Js Promise Api Drift DriftLog.

Lemma load_requestOk (f : string) :
  existsb (String.eqb f) FILTERS = true -> requestOk (load f) = true.
Proof.
  unfold FILTERS. cbn [existsb].
  destruct (String.eqb_spec f "") as [->|_]; [done|].
  destruct (String.eqb_spec f "spend") as [->|_]; [done|].
  destruct (String.eqb_spec f "demand") as [->|_]; done.
Qed.

(** The effect on [selectedQuery] sends a request only from its last
    branch, and then the request is a well-formed execution. *)
Lemma selectionEffect_request (sel : option DriftSample) (cs : list Call) (r : Request) :
  selectionEffect sel = (cs, Some r) ->
  requestOk r = true /\ cs = [SetExecLoading true] /\
  exists q a, r = PostExecute q a.
Proof.
  unfold selectionEffect.
  destruct (sel ≫= sql) as [q|], (sel ≫= agent_type) as [a|]; simpl; try discriminate.
  - destruct (String.eqb q "") eqn:Hq, (String.eqb a "") eqn:Ha; simpl; try discriminate.
    destruct (includes q "Not Available") eqn:Hi; [discriminate|].
    intros [= <- <-]. simpl. rewrite Hq, Ha, Hi. eauto.
  - destruct (negb (String.eqb q "")); discriminate.
Qed.

Lemma runSelectionEffect_network (rt : Runtime) :
  (network (runSelectionEffect rt) = network rt /\
   inflight (runSelectionEffect rt) = inflight rt /\
   execLoading (hooks (runSelectionEffect rt)) = execLoading (hooks rt)) \/
  (exists q a,
      requestOk (PostExecute q a) = true /\
      network (runSelectionEffect rt) = network rt ++ [PostExecute q a] /\
      inflight (runSelectionEffect rt) = inflight rt ++ [length (network rt)] /\
      execLoading (hooks (runSelectionEffect rt)) = true).
Proof.
  unfold runSelectionEffect.
  destruct (selectionEffect (selectedQuery (hooks rt))) as [cs [r|]] eqn:He.
  - destruct (selectionEffect_request _ _ _ He) as (Hok & -> & q & a & ->).
    right. by exists q, a.
  - left.
    destruct (DriftFacts.selectionEffect_cases (selectedQuery (hooks rt)))
      as [H | [H | (q & a & H)]]; rewrite H in He; by injection He as <-.
Qed.

Lemma forallb_snoc (l : list Request) (r : Request) :
  forallb requestOk l = true -> requestOk r = true ->
  forallb requestOk (l ++ [r]) = true.
Proof. intros Hl Hr. rewrite forallb_app, Hl. simpl. by rewrite Hr. Qed.

(** A timer that is live belongs to the mounted panel and polls under the
    filter in force. *)
Lemma callbackOf_inv (t : nat) (f : string) (rt : Runtime) :
  TimersInv rt -> callbackOf t rt = Some f ->
  mounted rt = true /\ f = filter (hooks rt).
Proof.
  unfold TimersInv, callbackOf. destruct (mounted rt).
  - intros (id & _ & _ & ->). cbn. destruct (Nat.eqb id t); [|done].
    cbn. by intros [= <-].
  - by intros ->.
Qed.

Lemma step_filter (ev : Event) (rt : Runtime) :
  existsb (String.eqb (filter (hooks rt))) FILTERS = true ->
  existsb (String.eqb (filter (hooks (step ev rt)))) FILTERS = true.
Proof.
  intros Hf. destruct ev as [t|v|i| |id o|id o|]; simpl.
  - by destruct (callbackOf t rt).
  - unfold clickFilter. destruct (onScreen rt); [|done].
    destruct (existsb (String.eqb v) FILTERS) eqn:Hv; [|done]. cbn [negb].
    destruct (String.eqb v (filter (hooks rt))); [done|].
    rewrite DriftFacts.filterEffect_hooks.
    by rewrite (proj1 (DriftFacts.filterCleanup_frame _)).
  - unfold clickRow. destruct (onScreen rt); [|done].
    destruct (nth_error _ _); [|done]. destruct (sameRef _ _); [done|].
    by rewrite (proj1 (proj2 (proj2 (DriftFacts.runSelectionEffect_frame _)))).
  - unfold clickClose. destruct (onScreen rt); [|done].
    destruct (selectedQuery (hooks rt)); [|done].
    by rewrite (proj1 (proj2 (proj2 (DriftFacts.runSelectionEffect_frame _)))).
  - destruct (pending id rt && isDriftFetch id rt); [|done]. by destruct o.
  - destruct (pending id rt && isExecFetch id rt); [|done]. by destruct o.
  - unfold unmount. cbn [hooks].
    by rewrite (proj1 (DriftFacts.filterCleanup_frame _)).
Qed.

Lemma step_network (ev : Event) (rt : Runtime) :
  RequestsInv rt -> forallb requestOk (network (step ev rt)) = true.
Proof.
  intros (Hf & Ht & Hn). destruct ev as [t|v|i| |id o|id o|]; simpl.
  - destruct (callbackOf t rt) as [f|] eqn:Hc; [|done].
    destruct (callbackOf_inv t f rt Ht Hc) as [_ ->].
    simpl. by apply forallb_snoc, load_requestOk.
  - unfold clickFilter. destruct (onScreen rt); [|done].
    destruct (existsb (String.eqb v) FILTERS) eqn:Hv; [|done]. cbn [negb].
    destruct (String.eqb v (filter (hooks rt))); [done|].
    unfold filterEffect. cbn [network setInterval send].
    rewrite (proj1 (proj2 (proj2 (DriftFacts.filterCleanup_frame _)))).
    rewrite (proj1 (DriftFacts.filterCleanup_frame _)).
    cbn. by apply forallb_snoc, load_requestOk.
  - unfold clickRow. destruct (onScreen rt); [|done].
    destruct (nth_error _ _); [|done]. destruct (sameRef _ _); [done|].
    destruct (runSelectionEffect_network
                (withSelection (Some d0) (Some (dataFrom rt, i)) rt))
      as [(-> & _) | (q & a & Hok & -> & _)]; [done|]. by apply forallb_snoc.
  - unfold clickClose. destruct (onScreen rt); [|done].
    destruct (selectedQuery (hooks rt)); [|done].
    destruct (runSelectionEffect_network (withSelection None None rt))
      as [(-> & _) | (q & a & Hok & -> & _)]; [done|]. by apply forallb_snoc.
  - by destruct (pending id rt && isDriftFetch id rt).
  - by destruct (pending id rt && isExecFetch id rt).
  - unfold unmount. cbn [network].
    by rewrite (proj1 (proj2 (proj2 (DriftFacts.filterCleanup_frame _)))).
Qed.

Lemma step_RequestsInv (ev : Event) (rt : Runtime) : RequestsInv rt -> RequestsInv (step ev rt).
Proof.
  intros HI. pose proof HI as (Hf & Ht & Hn).
  split; [by apply step_filter|].
  split; [by apply DriftFacts.step_TimersInv | by apply step_network].
Qed.

Lemma run_RequestsInv (evs : list Event) (rt : Runtime) : RequestsInv rt -> RequestsInv (run evs rt).
Proof.
  revert rt. induction evs as [|ev evs IH]; intros rt H; [done|].
  apply (IH (step ev rt)), step_RequestsInv, H.
Qed.

Lemma mount_RequestsInv : RequestsInv mount.
Proof.
  split; [reflexivity|]. split; [apply DriftFacts.mount_TimersInv | reflexivity].
Qed.

(** The timer of the drift panel never polls under a stale filter.  After
    any events, while the panel is mounted one interval is live, the one
    the last run of the effect on [filter] created, and its callback holds
    the filter in force, which is one of '', 'spend' and 'demand': the
    cleanup of the effect has cleared every earlier one.  Once the panel is
    unmounted no timer is left.  So a tick sends nothing, or the poll under
    the filter in force. *)
Theorem timer_polls_under_the_filter_in_force (evs : list Event) :
  let rt := run evs mount in
  In (filter (hooks rt)) FILTERS /\
  map snd (timers rt) = (if mounted rt then [filter (hooks rt)] else []) /\
  map fst (timers rt) = (if mounted rt then option_list (interval rt) else []) /\
  (forall t f, callbackOf t rt = Some f -> f = filter (hooks rt)) /\
  (forall t, step (Tick t) rt = rt \/
             step (Tick t) rt = send (load (filter (hooks rt))) rt).
Proof.
  intros rt.
  destruct (run_RequestsInv evs mount mount_RequestsInv) as (Hf & Ht & _).
  fold rt in Hf, Ht.
  split; [|split; [|split; [|split]]].
  - apply existsb_exists in Hf as (f & Hin & Heq).
    by apply String.eqb_eq in Heq as ->.
  - unfold TimersInv in Ht. destruct (mounted rt).
    + by destruct Ht as (id & _ & _ & ->).
    + by rewrite Ht.
  - unfold TimersInv in Ht. destruct (mounted rt).
    + by destruct Ht as (id & -> & _ & ->).
    + by rewrite Ht.
  - intros t f Hc. by destruct (callbackOf_inv t f rt Ht Hc).
  - intros t. destruct (DriftFacts.tick_cases t rt) as [-> | (f & Hc & ->)]; [by left|].
    right. by destruct (callbackOf_inv t f rt Ht Hc) as [_ ->].
Qed.

(** Whatever is clicked and whatever the fetches answer, the drift panel
    sends only two kinds of request: a drift poll with no [agent_type] or
    with 'spend' or 'demand', and the execution of a SQL text that is not
    empty and does not contain 'Not Available', for an agent that is not
    empty.  The execute endpoint is never called for a row without SQL,
    without agent, or with the placeholder. *)
Theorem drift_panel_sends_only_well_formed_requests (evs : list Event) :
  forallb requestOk (network (run evs mount)) = true.
Proof. by destruct (run_RequestsInv evs mount mount_RequestsInv) as (_ & _ & Hn). Qed.

End DriftRequests.

(** ** The loading line of the output box *)

Module DriftLoading.
Import Js Promise Api Drift DriftLog.

Lemma settled_out_In (id j : nat) (l : list nat) :
  In j (settled_out id l) <-> In j l /\ id <> j.
Proof.
  unfold settled_out. rewrite filter_In, negb_true_iff, Nat.eqb_neq. tauto.
Qed.

Lemma send_Bounded (r : Request) (rt : Runtime) : Bounded rt -> Bounded (send r rt).
Proof.
  unfold Bounded. simpl. intros H. rewrite length_app. simpl.
  apply Forall_app. split; [|constructor; [lia|constructor]].
  eapply Forall_impl; [exact H|]. simpl. intros; lia.
Qed.

Lemma send_execInFlight (r : Request) (rt : Runtime) :
  Bounded rt -> execInFlight rt -> execInFlight (send r rt).
Proof.
  intros Hb (id & Hin & He). exists id. split; [simpl; apply in_or_app; by left|].
  assert (Hlt : id < length (network rt)).
  { unfold Bounded in Hb. rewrite List.Forall_forall in Hb. by apply Hb. }
  unfold isExecFetch in *. simpl. by rewrite nth_error_app1.
Qed.

Lemma send_exec_inFlight (q a : string) (rt : Runtime) :
  execInFlight (send (PostExecute q a) rt).
Proof.
  exists (length (network rt)). split; [simpl; apply in_or_app; right; by left|].
  unfold isExecFetch. simpl. rewrite nth_error_app2 by lia.
  by rewrite Nat.sub_diag.
Qed.

(** The effect on [selectedQuery], as far as the loading line goes: either
    it sends nothing and leaves [execLoading] alone, or it sends an
    execution and sets it. *)
Lemma runSelectionEffect_LoadingInv (rt : Runtime) :
  LoadingInv rt -> LoadingInv (runSelectionEffect rt).
Proof.
  intros (Hb & Hl). unfold runSelectionEffect.
  destruct (DriftFacts.selectionEffect_cases (selectedQuery (hooks rt)))
    as [-> | [-> | (q & a & ->)]].
  - split; [exact Hb|]. exact Hl.
  - split; [exact Hb|]. exact Hl.
  - split; [by apply send_Bounded|]. intros _ _. apply send_exec_inFlight.
Qed.

Lemma withSelection_LoadingInv (s : option DriftSample) (r : option (nat * nat)) (rt : Runtime) :
  LoadingInv rt -> LoadingInv (withSelection s r rt).
Proof. intros (Hb & Hl). split; [exact Hb|]. exact Hl. Qed.

(** The invariant looks at the requests, the fetches in flight, [mounted]
    and [execLoading] only. *)
Lemma LoadingInv_ext (rt rt' : Runtime) :
  network rt' = network rt -> inflight rt' = inflight rt ->
  mounted rt' = mounted rt ->
  execLoading (hooks rt') = execLoading (hooks rt) ->
  LoadingInv rt -> LoadingInv rt'.
Proof.
  intros Hn Hi Hm He (Hb & Hl). split.
  - unfold Bounded. by rewrite Hn, Hi.
  - rewrite Hm, He. intros H1 H2. destruct (Hl H1 H2) as (id & Hin & Hid).
    exists id. unfold isExecFetch. by rewrite Hi, Hn.
Qed.

Lemma send_LoadingInv (r : Request) (rt : Runtime) :
  LoadingInv rt -> LoadingInv (send r rt).
Proof.
  intros (Hb & Hl). split; [by apply send_Bounded|].
  intros Hm He. apply send_execInFlight; [done|]. by apply Hl.
Qed.

Lemma step_LoadingInv (ev : Event) (rt : Runtime) : LoadingInv rt -> LoadingInv (step ev rt).
Proof.
  intros HI. pose proof HI as (Hb & Hl).
  destruct ev as [t|v|i| |id o|id o|]; simpl.
  - destruct (callbackOf t rt) as [f|]; [|done]. by apply send_LoadingInv.
  - unfold clickFilter. destruct (onScreen rt); [|done].
    destruct (negb _); [done|]. destruct (String.eqb _ _); [done|].
    unfold filterEffect.
    eapply LoadingInv_ext; [| | | |apply send_LoadingInv]; [done..|].
    destruct (DriftFacts.filterCleanup_frame
                (withHooks (perform (SetFilter v) (hooks rt)) rt))
      as (Hh & Hm & Hn & Hi & _).
    apply (LoadingInv_ext rt); [done | done | done | by rewrite Hh | done].
  - unfold clickRow. destruct (onScreen rt); [|done].
    destruct (nth_error _ _); [|done]. destruct (sameRef _ _); [done|].
    by apply runSelectionEffect_LoadingInv, withSelection_LoadingInv.
  - unfold clickClose. destruct (onScreen rt); [|done].
    destruct (selectedQuery (hooks rt)); [|done].
    by apply runSelectionEffect_LoadingInv, withSelection_LoadingInv.
  - destruct (pending id rt && isDriftFetch id rt) eqn:Hg; [|done].
    apply andb_true_iff in Hg as [_ Hd]. split.
    + unfold Bounded in *. simpl. rewrite List.Forall_forall in *.
      intros j Hj. apply settled_out_In in Hj as [Hj _]. by apply Hb.
    + simpl. intros Hm He.
      destruct Hl as (j & Hj & Hje); [done | by destruct o |].
      exists j. split; [|exact Hje]. simpl. apply settled_out_In. split; [done|].
      intros ->. unfold isDriftFetch, isExecFetch in *.
      destruct (nth_error (network rt) j) as [[]|]; discriminate.
  - destruct (pending id rt && isExecFetch id rt) eqn:Hg; [|done]. split.
    + unfold Bounded in *. simpl. rewrite List.Forall_forall in *.
      intros j Hj. apply settled_out_In in Hj as [Hj _]. by apply Hb.
    + simpl. intros Hm He. by destruct o.
  - destruct (DriftFacts.filterCleanup_frame rt) as (Hh & Hm & Hn & Hi & _).
    split; [|simpl; discriminate].
    unfold Bounded, unmount. cbn [network inflight]. by rewrite Hn, Hi.
Qed.

Lemma run_LoadingInv (evs : list Event) (rt : Runtime) : LoadingInv rt -> LoadingInv (run evs rt).
Proof.
  revert rt. induction evs as [|ev evs IH]; intros rt H; [done|].
  apply (IH (step ev rt)), step_LoadingInv, H.
Qed.

Lemma mount_LoadingInv : LoadingInv mount.
Proof.
  split; [|discriminate]. unfold Bounded. vm_compute. constructor; [lia|constructor].
Qed.

(** The loading line of the output box cannot stick: after any events,
    while the panel is mounted, [execLoading] is set only if some execute
    fetch is still in flight, whose answer will clear it. *)
Theorem loading_line_means_a_fetch_in_flight (evs : list Event) :
  let rt := run evs mount in
  mounted rt = true -> execLoading (hooks rt) = true -> execInFlight rt.
Proof. intros rt. by destruct (run_LoadingInv evs mount mount_LoadingInv) as (_ & H). Qed.

(** The theorem at the panel with row X just clicked. *)
Lemma loading_line_means_a_fetch_in_flight_witness :
  execInFlight (run [SettleDrift 0 (Fulfilled Scenario.driftAll); ClickRow 0] mount).
Proof.
  apply (loading_line_means_a_fetch_in_flight
           [SettleDrift 0 (Fulfilled Scenario.driftAll); ClickRow 0]); reflexivity.
Defined.

End DriftLoading.

(** ** The drift panel after a failed poll, on a second click, on a bare answer *)

Module DriftEdges.
Import Js Promise Api Drift DriftLog.
Import Panels (View, ErrorMessage, Placeholder, Content).

Lemma onScreen_off (rt : Runtime) :
  truthy (error (hooks rt)) = true -> onScreen rt = None.
Proof. intros H. unfold onScreen. rewrite H. by destruct (mounted rt). Qed.

Lemma step_frozen (ev : Event) (rt : Runtime) :
  truthy (error (hooks rt)) = true -> loud ev = true ->
  truthy (error (hooks (step ev rt))) = true /\
  filter (hooks (step ev rt)) = filter (hooks rt) /\
  selectedQuery (hooks (step ev rt)) = selectedQuery (hooks rt).
Proof.
  intros He Hl. pose proof (onScreen_off rt He) as Hs.
  destruct ev as [t|v|i| |id o|id o|]; simpl.
  - by destruct (callbackOf t rt).
  - unfold clickFilter. by rewrite Hs.
  - unfold clickRow. by rewrite Hs.
  - unfold clickClose. by rewrite Hs.
  - destruct (pending id rt && isDriftFetch id rt); [|done]. simpl.
    destruct o as [d|e]; [done|].
    simpl in *. by rewrite Hl.
  - destruct (pending id rt && isExecFetch id rt); [|done]. simpl.
    by destruct o.
  - unfold unmount. cbn [hooks].
    by rewrite (proj1 (DriftFacts.filterCleanup_frame rt)).
Qed.

(** One failed drift poll freezes the panel.  Once [error] holds a
    non-empty message, and as long as no later failure brings an empty one,
    the panel renders an error message and nothing else whatever happens:
    later polls may succeed, but no button is on screen, so the filter and
    the selection stay what they were. *)
Theorem failed_poll_freezes_the_panel (evs : list Event) (rt : Runtime) :
  truthy (error (hooks rt)) = true ->
  forallb loud evs = true ->
  let rt' := run evs rt in
  (exists msg, render (hooks rt') = ErrorMessage msg) /\
  onScreen rt' = None /\
  filter (hooks rt') = filter (hooks rt) /\
  selectedQuery (hooks rt') = selectedQuery (hooks rt).
Proof.
  revert rt. induction evs as [|ev evs IH]; intros rt He Hl.
  - simpl. split; [|by split; [apply onScreen_off|]].
    unfold render. rewrite He. eauto.
  - simpl in Hl. apply andb_true_iff in Hl as [Hev Hl].
    destruct (step_frozen ev rt He Hev) as (He' & Hf & Hq).
    destruct (IH (step ev rt) He' Hl) as (Hr & Hs & Hf' & Hq').
    change (run (ev :: evs) rt) with (run evs (step ev rt)).
    split; [exact Hr|]. split; [exact Hs|].
    by rewrite Hf', Hq'.
Qed.

(** The theorem at the panel whose table was on screen when a poll
    failed: a later poll succeeds, and the clicks reach nothing. *)
Lemma failed_poll_freezes_the_panel_witness :
  let failed := run [Tick 0; SettleDrift 1 (Rejected Scenario.networkError)]
                    Scenario.loaded in
  let later := run [Tick 0; SettleDrift 2 (Fulfilled Scenario.driftAllLater);
                    ClickFilter "spend"; ClickRow 0] failed in
  (exists msg, render (hooks later) = ErrorMessage msg) /\
  onScreen later = None /\
  filter (hooks later) = filter (hooks failed) /\
  selectedQuery (hooks later) = selectedQuery (hooks failed).
Proof.
  apply (failed_poll_freezes_the_panel
           [Tick 0; SettleDrift 2 (Fulfilled Scenario.driftAllLater);
            ClickFilter "spend"; ClickRow 0]
           (run [Tick 0; SettleDrift 1 (Rejected Scenario.networkError)] Scenario.loaded));
    reflexivity.
Defined.

(** A second click on the row just selected does nothing: the state after
    two clicks is the state after one, so no second request goes out. *)
Theorem second_click_on_the_selected_row_does_nothing (i : nat) (rt : Runtime) :
  step (ClickRow i) (step (ClickRow i) rt) = step (ClickRow i) rt.
Proof.
  simpl. unfold clickRow at 2.
  destruct (onScreen rt) as [d|] eqn:Hs; [|unfold clickRow; by rewrite Hs].
  destruct (nth_error (high_drift_samples d) i) as [s|] eqn:Hi;
    [|unfold clickRow; by rewrite Hs, Hi].
  destruct (sameRef (selectedRef rt) (dataFrom rt, i)) eqn:Hr;
    [unfold clickRow; by rewrite Hs, Hi, Hr|].
  set (rt1 := runSelectionEffect (withSelection (Some s) (Some (dataFrom rt, i)) rt)).
  assert (H : onScreen rt1 = Some d /\ dataFrom rt1 = dataFrom rt /\
              selectedRef rt1 = Some (dataFrom rt, i)).
  { unfold rt1, runSelectionEffect.
    destruct (DriftFacts.selectionEffect_cases
                (selectedQuery (hooks (withSelection (Some s) (Some (dataFrom rt, i)) rt))))
      as [-> | [-> | (q & a & ->)]]; by repeat split. }
  destruct H as (Hs1 & Hd1 & Hr1).
  unfold clickRow. rewrite Hs1, Hi, Hd1, Hr1. simpl.
  by rewrite !Nat.eqb_refl, Hs, Hi, Hr.
Qed.




End DriftEdges.

(** ** A run without a dataset *)

Module ExecutionsEdges.
Import Js JsObject Promise Panels ExecutionsView.

(** The search filter reads [run.dataset || ''] but the dataset cell reads
    [run.dataset] as it is.  So a run whose dataset is null or absent is
    listed (with the search box empty, always; otherwise whenever its
    prompt or verdict matches) and its dataset cell throws. *)
Theorem run_without_dataset_is_listed_and_breaks_its_row
        (toLowerCase toUpperCase : string -> string)
        (h : ExecutionsPanel.Hooks) (run : Json) :
  toLowerCase "" = "" ->
  forallb searchable (ExecutionsPanel.runs h) = true ->
  In run (ExecutionsPanel.runs h) ->
  get "dataset" run = None \/ get "dataset" run = Some JNull ->
  datasetCell toLowerCase toUpperCase run = None /\
  (ExecutionsPanel.searchTerm h = "" -> In run (filteredRuns toLowerCase h)) /\
  (includes (toLowerCase (textOf "prompt" run))
            (toLowerCase (ExecutionsPanel.searchTerm h)) = true ->
   In run (filteredRuns toLowerCase h)).
Proof.
  intros H0 _ Hin Hd. split; [|split].
  - unfold datasetCell. by destruct Hd as [-> | ->].
  - intros Ht. unfold filteredRuns. apply filter_In. split; [done|].
    unfold matches. by rewrite Ht, H0, ExecutionsFacts.includes_empty.
  - intros Hm. unfold filteredRuns. apply filter_In. split; [done|].
    unfold matches. by rewrite Hm.
Qed.

(** The theorem at a run that has a prompt and a verdict and no dataset. *)
Lemma run_without_dataset_is_listed_and_breaks_its_row_witness :
  let run := JObj [("prompt", JStr "Open orders"); ("correctness_verdict", JStr "PASS")] in
  let h := {| ExecutionsPanel.runs := [run]; ExecutionsPanel.loading := false;
              ExecutionsPanel.searchTerm := "" |} in
  datasetCell asciiLower asciiLower run = None /\
  In run (filteredRuns asciiLower h).
Proof.
  intros run h.
  destruct (run_without_dataset_is_listed_and_breaks_its_row
              asciiLower asciiLower h run) as (Hc & Hl & _);
    [reflexivity | reflexivity | by left | by left |].
  split; [exact Hc|]. by apply Hl.
Defined.

End ExecutionsEdges.

(** ** One panel at a time *)

Module DashboardTabs.
Import Js Promise Panels Poller DashboardView.

Lemma navStep_tab (ev : NavEvent) (rt : Runtime (panel Health)) :
  In (HealthPoll.tab (hooks rt)) TABS ->
  In (HealthPoll.tab (hooks (navStep ev rt))) TABS.
Proof.
  intros H. destruct ev as [e|i]; cbn [navStep].
  - destruct (PollerFacts.step_hooks _ e rt) as [-> | (id & o & _ & _ & ->)];
      [done|]. by destruct o.
  - unfold clickTab. destruct (nth_error TABS i) as [t|] eqn:Ht; [|done].
    destruct (mounted rt); [|done]. simpl. by apply nth_error_In in Ht.
Qed.

(** Whatever navbar buttons are clicked and whatever the health poll
    answers, the tab is one of the five of [TABS] and the main area holds
    exactly one panel: two panels, and so two sets of polls, are never
    mounted together, and the area is never blank. *)
Theorem exactly_one_panel_is_mounted (evs : list NavEvent) :
  let h := hooks (navRun evs (mount (panel Health))) in
  In (HealthPoll.tab h) TABS /\ exists k, mainContent (HealthPoll.tab h) = [k].
Proof.
  assert (H : forall rt : Runtime (panel Health),
             In (HealthPoll.tab (hooks rt)) TABS ->
             In (HealthPoll.tab (hooks (navRun evs rt))) TABS).
  { induction evs as [|ev evs IH]; intros rt Hrt; [done|].
    apply (IH (navStep ev rt)), navStep_tab, Hrt. }
  intros h. assert (Hin : In (HealthPoll.tab h) TABS) by (apply H; by left).
  split; [exact Hin|].
  destruct Hin as [<- | [<- | [<- | [<- | [<- | []]]]]]; by eexists.
Qed.

End DashboardTabs.

(** ** What keeps the selection *)

Module DriftSelection.
Import Js Promise Api Drift DriftLog.

(** Only a click on a row or on the close button changes the selection.
    A timer tick, a change of filter, an answer of either endpoint and the
    unmount leave [selectedQuery] as it is; and apart from the answers of
    the execute endpoint they leave [execResult] and [execLoading] as they
    are too.  So the details pane stays open on its query, with its output,
    when the filter changes or a poll brings a table that no longer lists
    the query. *)
Theorem only_clicks_change_the_selection (ev : Event) (rt : Runtime) :
  notASelection ev = true ->
  selectedQuery (hooks (step ev rt)) = selectedQuery (hooks rt) /\
  ((forall id o, ev <> SettleExec id o) ->
   execResult (hooks (step ev rt)) = execResult (hooks rt) /\
   execLoading (hooks (step ev rt)) = execLoading (hooks rt)).
Proof.
  intros Hev. destruct ev as [t|v|i| |id o|id o|]; try discriminate; simpl.
  - by destruct (callbackOf t rt).
  - unfold clickFilter. destruct (onScreen rt); [|done].
    destruct (negb _); [done|]. destruct (String.eqb _ _); [done|].
    rewrite DriftFacts.filterEffect_hooks.
    by rewrite (proj1 (DriftFacts.filterCleanup_frame _)).
  - destruct (pending id rt && isDriftFetch id rt); [|done]. simpl.
    by destruct o.
  - split.
    + destruct (pending id rt && isExecFetch id rt); [|done]. simpl.
      by destruct o.
    + intros H. by destruct (H id o).
  - unfold unmount. cbn [hooks].
    by rewrite (proj1 (DriftFacts.filterCleanup_frame rt)).
Qed.

(** The theorem at the panel with the 'demand' query Y selected and shown,
    when 'spend' is clicked and the scoped answer, which does not list Y,
    arrives. *)
Lemma only_clicks_change_the_selection_witness :
  let shown := run [ClickRow 1; SettleExec 1 (Fulfilled Scenario.rowsY);
                    ClickFilter "spend"] Scenario.loaded in
  let rt' := step (SettleDrift 2 (Fulfilled Scenario.driftSpend)) shown in
  selectedQuery (hooks rt') = Some Scenario.queryY /\
  execResult (hooks rt') = Some Scenario.rowsY /\
  data (hooks rt') = Some Scenario.driftSpend /\
  ~ In Scenario.queryY (high_drift_samples Scenario.driftSpend).
Proof.
  intros shown rt'.
  destruct (only_clicks_change_the_selection
              (SettleDrift 2 (Fulfilled Scenario.driftSpend)) shown eq_refl)
    as (Hq & Hr).
  destruct Hr as (Hr & _); [discriminate|].
  unfold rt'. split; [by rewrite Hq|]. split; [by rewrite Hr|]. split; [reflexivity|].
  intros [H | [H | []]]; discriminate.
Defined.

End DriftSelection.
